(** * Formation provider/service (src/services/Formation/Formation.js)

    A shallow embedding of the [Formation] AngularJS provider: the four
    closure variables of the provider function ([prefix], [showErrorsOnStr],
    [counter], [registeredComponents]), the three provider methods and the
    six service functions returned by [$get].

    JavaScript values are an inductive type, arrays live in a heap of
    locations (so that a reference and a copy can be told apart), the host
    framework's [$compileProvider] is an interface that either accepts a
    registration or throws, and every operation is a computation in a small
    state-and-exception monad. *)

From stdpp Require Import gmap strings list pretty.
From Stdlib Require Import ZArith Ascii String.

Local Open Scope string_scope.
Local Open Scope Z_scope.
Local Open Scope list_scope.
Local Set Warnings "-register-all".

(** ** JavaScript values *)

(** The integers a Number holds exactly and prints as a plain decimal
    numeral: those below [2^53] in magnitude. *)
Definition is_safe (n : Z) : bool := Z.abs n <? 2 ^ 53.

Record safe_int : Type := SafeInt {
  int_val :> Z;
  int_safe : Is_true (is_safe int_val)
}.

Definition safe_of_Z (n : Z) : option safe_int :=
  match is_safe n as b return (Is_true b -> safe_int) -> option safe_int with
  | true => fun k => Some (k I)
  | false => fun _ => None
  end (SafeInt n).

Declare Scope safe_int_scope.
Delimit Scope safe_int_scope with safe.
Bind Scope safe_int_scope with safe_int.
Number Notation safe_int safe_of_Z int_val : safe_int_scope.

(** The fragment of JavaScript values the provider handles.  [VNum n] is the
    Number with integer value [n], a safe integer; [VFun f] is a function
    without properties of its own, [f] its source text; [VArr] is an array
    without properties of its own beyond its elements; [VObj] is an object
    whose prototype is [Object.prototype] and whose own properties are data
    properties with string keys, in insertion order, as an object literal
    creates it. *)
Inductive value : Type :=
  | VUndefined
  | VNull
  | VBool (b : bool)
  | VNum (n : safe_int)
  | VStr (s : string)
  | VFun (src : string)
  | VArr (xs : list value)
  | VObj (fields : list (string * value)).

Abbreviation object := (list (string * value)).

(** Property read [o[k]]: the value of the own property [k], if any. *)
Fixpoint obj_get (k : string) (o : object) : option value :=
  match o with
  | [] => None
  | (k', v) :: o' => if String.eqb k k' then Some v else obj_get k o'
  end.

(** Property write [o[k] = v], also the meaning of a key in an object
    literal: an existing key keeps its position and takes the new value, a
    new key is added last. *)
Fixpoint obj_set (k : string) (v : value) (o : object) : object :=
  match o with
  | [] => [(k, v)]
  | (k', v') :: o' =>
      if String.eqb k k' then (k, v) :: o' else (k', v') :: obj_set k v o'
  end.

(** [Array.prototype.join(",")] over already converted elements. *)
Fixpoint join_comma (ss : list string) : string :=
  match ss with
  | [] => ""
  | [s] => s
  | s :: ss' => s +:+ "," +:+ join_comma ss'
  end.

(** A call either returns a value or throws one. *)
Inductive result (A : Type) : Type :=
  | Return (a : A)
  | Throw (e : value).
Arguments Return {A} a.
Arguments Throw {A} e.

(** What calling a function value does is not part of the provider: given
    the function and the object it is called on, with no arguments, the call
    returns a value or throws.  (A function called this way is taken not to
    call back into the provider.) *)
Class Callables : Type := {
  call_method : string -> value -> result value
}.

(** The error of a failed conversion. *)
Definition TypeError : value := VObj [("name", VStr "TypeError")].

(** ToString of a value that is not an object. *)
Definition prim_String (v : value) : option string :=
  match v with
  | VUndefined => Some "undefined"
  | VNull => Some "null"
  | VBool true => Some "true"
  | VBool false => Some "false"
  | VNum n => Some (pretty (int_val n))
  | VStr s => Some s
  | VFun _ | VArr _ | VObj _ => None
  end.

(** One step of OrdinaryToPrimitive on the object with properties [o]:
    [Get(O, name)] finds the own property or else the method of
    [Object.prototype], whose result is [inherited]; a method that is not
    callable is passed over ([None]), a callable one is called on the
    object. *)
Definition try_method {F : Callables} (name : string) (o : object)
    (inherited : value) : option (result value) :=
  match obj_get name o with
  | Some (VFun f) => Some (call_method f (VObj o))
  | Some _ => None
  | None => Some (Return inherited)
  end.

(** What a conversion step yields: a primitive ends the conversion, a throw
    ends it too, anything else (no callable method, or a result that is an
    object) hands over to the next step. *)
Definition settled (r : option (result value)) : option (result string) :=
  match r with
  | Some (Throw e) => Some (Throw e)
  | Some (Return v) => Return <$> prim_String v
  | None => None
  end.

(** [String(O)] for an object: [toString] first, then [valueOf], a
    TypeError when neither gives a primitive.  [Object.prototype.toString]
    gives ["[object Object]"], [Object.prototype.valueOf] the object
    itself. *)
Definition obj_String {F : Callables} (o : object) : result string :=
  match settled (try_method "toString" o (VStr "[object Object]")) with
  | Some r => r
  | None =>
      match settled (try_method "valueOf" o (VObj o)) with
      | Some r => r
      | None => Throw TypeError
      end
  end.

(** [String(v)], the ECMAScript ToString conversion: a primitive prints as
    [prim_String] says, a function as its source text, an array as its
    elements joined by commas, with [undefined] and [null] elements printed
    as nothing and the first element whose conversion throws ending the
    conversion, an object as [obj_String] says. *)
Fixpoint js_String {F : Callables} (v : value) : result string :=
  match v with
  | VFun src => Return src
  | VArr xs =>
      match
        (fix elements (xs : list value) : result (list string) :=
           match xs with
           | [] => Return []
           | x :: xs' =>
               match
                 match x with
                 | VUndefined | VNull => Return ""
                 | _ => js_String x
                 end
               with
               | Throw e => Throw e
               | Return s =>
                   match elements xs' with
                   | Throw e => Throw e
                   | Return ss => Return (s :: ss)
                   end
               end
           end) xs
      with
      | Throw e => Throw e
      | Return ss => Return (join_comma ss)
      end
  | VObj o => obj_String o
  | _ =>
      match prim_String v with
      | Some s => Return s
      | None => Throw TypeError
      end
  end.

(** [a || b] on strings: the empty string is the only falsy string. *)
Definition str_or (a b : string) : string :=
  match a with
  | EmptyString => b
  | _ => a
  end.

(** ** Numbers used as counters *)

(** A JavaScript Number is an IEEE-754 double: every integer up to [2^53] in
    magnitude is represented exactly, [2^53 + 1] is not and rounds (ties to
    even) back to [2^53]. *)
Definition MAX_EXACT : Z := 2 ^ 53.

(** [n + 1] on a Number holding an integer between [-2^53] and [2^53]. *)
Definition js_succ (n : Z) : Z :=
  if n <? MAX_EXACT then n + 1 else n.

(** ** Imports that are not part of this file *)

(** The constants imported from [etc/constants] and
    [components/FormationControl].  Their values are not needed: they are
    parameters of the development. *)
Class Constants : Type := {
  DEFAULT_PREFIX : string;
  FORM_COMPONENT_NAME : string;
  COMPONENT_CONFIGURATION : string;
  FORM_CONTROLLER : string
}.

(** The helpers imported from [etc/utils]. *)
Class Utils : Type := {
  capitalize : string -> string;
  lowercase : string -> string;
  mergeDeep : value -> value -> value
}.

(** A registration received by the host framework's [$compileProvider]. *)
Inductive host_call : Type :=
  | Component (name : string) (definition : value)
  | Directive (name : string) (directiveFn : value).

(** The host compiler is opaque: given the registrations it has accepted so
    far and a new one, it either accepts ([None]) or throws its own error
    ([Some e]). *)
Class CompileProvider : Type := {
  rejects : list host_call -> host_call -> option value
}.

(** ** State *)

Abbreviation loc := nat.

(** The closure variables of the provider function, the heap of arrays they
    and the callers refer to, and what the host compiler has registered. *)
Record state : Type := State {
  prefix : string;
  showErrorsOnStr : value;
  counter : Z;
  registeredComponents : loc;
  heap : gmap loc (list value);
  compiled : list host_call
}.

Definition set_prefix (s : string) (st : state) : state :=
  State s (showErrorsOnStr st) (counter st) (registeredComponents st)
        (heap st) (compiled st).

Definition set_showErrorsOnStr (v : value) (st : state) : state :=
  State (prefix st) v (counter st) (registeredComponents st)
        (heap st) (compiled st).

Definition set_counter (n : Z) (st : state) : state :=
  State (prefix st) (showErrorsOnStr st) n (registeredComponents st)
        (heap st) (compiled st).

Definition set_heap (h : gmap loc (list value)) (st : state) : state :=
  State (prefix st) (showErrorsOnStr st) (counter st)
        (registeredComponents st) h (compiled st).

Definition set_compiled (cs : list host_call) (st : state) : state :=
  State (prefix st) (showErrorsOnStr st) (counter st)
        (registeredComponents st) (heap st) cs.

(** The provider function has just run: [prefix = ''], [showErrorsOnStr]
    declared but not assigned, [counter = -1], [registeredComponents] a new
    empty array, nothing registered with the host. *)
Definition init : state :=
  State "" VUndefined (-1) 0%nat {[ 0%nat := [] ]} [].

(** Contents of the array at [l]. *)
Definition array_at (l : loc) (st : state) : list value :=
  default [] (heap st !! l).

(** The registration log: contents of the private array. *)
Definition log (st : state) : list value :=
  array_at (registeredComponents st) st.

(** ** Computations *)

(** A computation on the provider's state returns or throws, and either way
    leaves a state behind. *)
Definition M (A : Type) : Type := state -> result A * state.

#[global] Instance M_ret : MRet M := fun A a st => (Return a, st).

#[global] Instance M_bind : MBind M := fun A B k m st =>
  match m st with
  | (Return a, st') => k a st'
  | (Throw e, st') => (Throw e, st')
  end.

Definition get {A} (f : state -> A) : M A := fun st => (Return (f st), st).

Definition modify (f : state -> state) : M unit :=
  fun st => (Return tt, f st).

(** An evaluation that does not touch the state. *)
Definition lift {A} (r : result A) : M A := fun st => (r, st).

(** ** Arrays *)

(** [arr.push(v)] *)
Definition push (l : loc) (v : value) : M unit :=
  modify (fun st => set_heap (alter (fun xs => xs ++ [v]) l (heap st)) st).

(** [R.clone(arr)] on an array of values: a new array with the same
    contents. *)
Definition clone (l : loc) : M loc :=
  fun st =>
    let l' := fresh (dom (heap st)) in
    (Return l', set_heap (<[ l' := array_at l st ]> (heap st)) st).

(** Any mutation a caller performs through a reference [l] it holds
    ([push], [pop], [splice], an index or [length] assignment): the array at
    [l] then holds [xs]. *)
Definition array_write (l : loc) (xs : list value) (st : state) : state :=
  match heap st !! l with
  | Some _ => set_heap (<[ l := xs ]> (heap st)) st
  | None => st
  end.

(** ** The host compiler *)

(** [$compileProvider.component(name, definition)] and
    [$compileProvider.directive(name, directiveFn)]. *)
Definition compile {P : CompileProvider} (c : host_call) : M unit :=
  fun st =>
    match rejects (compiled st) c with
    | None => (Return tt, set_compiled (compiled st ++ [c]) st)
    | Some e => (Throw e, st)
    end.

(** ** The provider: [app.provider('Formation', function ($compileProvider) {...})] *)

(** The provider methods ([this.$getRegisteredComponents], [this.setPrefix],
    [this.showErrorsOn]) and the six functions of the service object that
    [this.$get] returns all close over the same four variables, so all nine
    are computations on the one [state].  A [$] that starts a JavaScript name
    is dropped.  [name] is a string, as the JSDoc of the three registration
    functions and of [$getPrefixedName] says. *)

Section Formation.
Context {C : Constants} {U : Utils} {P : CompileProvider} {F : Callables}.

(** [this.$getRegisteredComponents = () => R.clone(registeredComponents)] *)
Definition getRegisteredComponents : M loc :=
  l ← get registeredComponents; clone l.

(** [this.setPrefix = newPrefix => { prefix = String(newPrefix); }] *)
Definition setPrefix (newPrefix : value) : M unit :=
  s ← lift (js_String newPrefix);
  modify (set_prefix s).

(** [this.showErrorsOn = flags => { showErrorsOnStr = flags; }] *)
Definition showErrorsOn (flags : value) : M unit :=
  modify (set_showErrorsOnStr flags).

(** [function $getNextId () { return ++counter; }] *)
Definition getNextId : M Z :=
  modify (fun st => set_counter (js_succ (counter st)) st);;
  get counter.

(** [function $getShowErrorsOnStr () { return showErrorsOnStr; }] *)
Definition getShowErrorsOnStr : M value :=
  get showErrorsOnStr.

(** [function $getPrefixedName (name) {
      return `${prefix || DEFAULT_PREFIX}${capitalize(name)}`; }] *)
Definition getPrefixedName (name : string) : M string :=
  p ← get prefix;
  mret (str_or p DEFAULT_PREFIX +:+ capitalize name).

(** [function $registerComponent (name, definition) {
      $compileProvider.component(lowercase(name), definition);
      registeredComponents.push(name); }] *)
Definition registerComponent (name : string) (definition : value) : M unit :=
  compile (Component (lowercase name) definition);;
  l ← get registeredComponents;
  push l (VStr name).

(** [function $registerDirective (name, directiveFn) {
      $compileProvider.directive(lowercase(name), directiveFn);
      registeredComponents.push(name); }] *)
Definition registerDirective (name : string) (directiveFn : value) : M unit :=
  compile (Directive (lowercase name) directiveFn);;
  l ← get registeredComponents;
  push l (VStr name).

(** The object literal that [registerControl] merges the caller's
    definition into. *)
Definition base_bindings : object :=
  obj_set "$ngDisabled" (VStr "<ngDisabled")
    (obj_set COMPONENT_CONFIGURATION (VStr "<config") []).

Definition base_require : object :=
  obj_set FORM_CONTROLLER (VStr ("^^" +:+ FORM_COMPONENT_NAME)) [].

Definition base_fields : object :=
  obj_set "require" (VObj base_require)
    (obj_set "bindings" (VObj base_bindings) []).

Definition base_definition : value := VObj base_fields.

(** [function registerControl (name, definition) {
      $registerComponent(name, mergeDeep({...}, definition)); }] *)
Definition registerControl (name : string) (definition : value) : M unit :=
  registerComponent name (mergeDeep base_definition definition).

(** *** Calls and what the caller observes *)

(** A call of one of the nine functions the provider and the service
    expose. *)
Inductive op : Type :=
  | GetRegisteredComponents
  | SetPrefix (newPrefix : value)
  | ShowErrorsOn (flags : value)
  | GetNextId
  | GetShowErrorsOnStr
  | GetPrefixedName (name : string)
  | RegisterComponent (name : string) (definition : value)
  | RegisterDirective (name : string) (directiveFn : value)
  | RegisterControl (name : string) (definition : value).

(** What a call hands back: [undefined], a number, a value, a string, a
    reference to an array, or an exception. *)
Inductive outcome : Type :=
  | Undefined
  | Num (n : Z)
  | Val (v : value)
  | Str (s : string)
  | Ref (l : loc)
  | Thrown (e : value).

Definition observe {A} (f : A -> outcome) (m : M A)
  : state -> outcome * state :=
  fun st =>
    match m st with
    | (Return a, st') => (f a, st')
    | (Throw e, st') => (Thrown e, st')
    end.

Definition step (o : op) : state -> outcome * state :=
  match o with
  | GetRegisteredComponents => observe Ref getRegisteredComponents
  | SetPrefix v => observe (fun _ => Undefined) (setPrefix v)
  | ShowErrorsOn v => observe (fun _ => Undefined) (showErrorsOn v)
  | GetNextId => observe Num getNextId
  | GetShowErrorsOnStr => observe Val getShowErrorsOnStr
  | GetPrefixedName n => observe Str (getPrefixedName n)
  | RegisterComponent n d => observe (fun _ => Undefined) (registerComponent n d)
  | RegisterDirective n f => observe (fun _ => Undefined) (registerDirective n f)
  | RegisterControl n d => observe (fun _ => Undefined) (registerControl n d)
  end.

(** A sequence of calls, each made in the state the previous one left;
    a call that throws does not stop the caller from making the next. *)
Fixpoint run (ops : list op) (st : state) : list outcome * state :=
  match ops with
  | [] => ([], st)
  | o :: ops' =>
      let (r, st1) := step o st in
      let (rs, st2) := run ops' st1 in
      (r :: rs, st2)
  end.
End Formation.

(** The numbers among the outcomes: [$getNextId] is the only call that
    returns one. *)
Fixpoint ids (rs : list outcome) : list Z :=
  match rs with
  | [] => []
  | Num n :: rs' => n :: ids rs'
  | _ :: rs' => ids rs'
  end.

(** How many of the calls are [$getNextId()]. *)
Fixpoint count_getNextId (ops : list op) : nat :=
  match ops with
  | [] => 0
  | GetNextId :: ops' => S (count_getNextId ops')
  | _ :: ops' => count_getNextId ops'
  end.

(** The argument of the last [showErrorsOn] call, if there was one. *)
Fixpoint last_flags (ops : list op) : option value :=
  match ops with
  | [] => None
  | ShowErrorsOn v :: ops' =>
      match last_flags ops' with
      | Some w => Some w
      | None => Some v
      end
  | _ :: ops' => last_flags ops'
  end.

(** [2^53 + 2] calls of [$getNextId()] in a row. *)
Definition saturating_calls : list op :=
  replicate (Z.to_nat (2 ^ 53 + 2)) GetNextId.

(** A call of [setPrefix]. *)
Definition is_setPrefix (o : op) : bool :=
  match o with
  | SetPrefix _ => true
  | _ => false
  end.

(** The two read operations. *)
Definition is_read (o : op) : bool :=
  match o with
  | GetShowErrorsOnStr | GetRegisteredComponents => true
  | _ => false
  end.

(** What the registry holds, as opposed to where it holds it. *)
Definition view (st : state)
  : string * value * Z * list value * list host_call :=
  (prefix st, showErrorsOnStr st, counter st, log st, compiled st).

(** What a read returns, compared with the state it was made in: the getter
    returns the stored flags, the log reader a reference to a new array that
    holds the log. *)
Definition read_result (st : state) (r : outcome) (st' : state) : Prop :=
  match r with
  | Val v => v = showErrorsOnStr st
  | Ref l => array_at l st' = log st /\ l <> registeredComponents st
  | _ => False
  end.

(** The state a successful registration of [c] under the name [name] leaves:
    [c] is with the host, [name] is at the end of the log. *)
Definition registered (c : host_call) (name : string) (st : state) : state :=
  set_heap
    (alter (fun xs => xs ++ [VStr name]) (registeredComponents st) (heap st))
    (set_compiled (compiled st ++ [c]) st).

(** The private array exists. *)
Definition wf (st : state) : Prop :=
  is_Some (heap st !! registeredComponents st).

(** ** The helpers of [etc/utils] *)

Module EtcUtils.

Definition to_upper (c : ascii) : ascii :=
  let n := N_of_ascii c in
  if ((97 <=? n) && (n <=? 122))%N then ascii_of_N (n - 32) else c.

Definition to_lower (c : ascii) : ascii :=
  let n := N_of_ascii c in
  if ((65 <=? n) && (n <=? 90))%N then ascii_of_N (n + 32) else c.

(** Modelled from the spec: [capitalize] of [etc/utils], which is not
    among the sources.  "First character uppercased, remainder unchanged
    (ASCII simple case)." *)
Definition capitalize (s : string) : string :=
  match s with
  | EmptyString => EmptyString
  | String c r => String (to_upper c) r
  end.

(** Modelled from the spec: [lowercase] of [etc/utils], which is not among
    the sources.  "[registerComponent(name, definition)]: lowercases
    [name]". *)
Fixpoint lowercase (s : string) : string :=
  match s with
  | EmptyString => EmptyString
  | String c r => String (to_lower c) (lowercase r)
  end.

(** The spec leaves open which side wins when the base and the caller
    disagree on a value that is not an object on both sides. *)
Class MergePolicy : Type := {
  pick : value -> value -> value
}.

(** Modelled from the spec: [mergeDeep] of [etc/utils], which is not among
    the sources.  "The merge adds the base binding/require keys alongside
    whatever the caller provided, recursively merging overlapping nested
    objects/maps"; a conflict between values that are not both objects is
    settled by the merge policy. *)
Fixpoint mergeDeep {MP : MergePolicy} (a b : value) : value :=
  match a, b with
  | VObj fa, VObj fb =>
      VObj (map (fun '(k, va) =>
                   (k, match obj_get k fb with
                       | Some vb => mergeDeep va vb
                       | None => va
                       end)) fa
            ++ List.filter (fun '(k, _) =>
                              match obj_get k fa with
                              | Some _ => false
                              | None => true
                              end) fb)
  | _, _ => pick a b
  end.

(** The properties of the merge of two objects. *)
Definition merge_fields {MP : MergePolicy} (fa fb : object) : object :=
  map (fun '(k, va) =>
         (k, match obj_get k fb with
             | Some vb => mergeDeep va vb
             | None => va
             end)) fa
  ++ List.filter (fun '(k, _) =>
                    match obj_get k fa with
                    | Some _ => false
                    | None => true
                    end) fb.

Definition utils {MP : MergePolicy} : Utils :=
  Build_Utils capitalize lowercase mergeDeep.

End EtcUtils.

(** ** What a registered control is promised *)

Section Contract.
Context {C : Constants}.

(** Every property of [fd] is in [fm] with the same value; where the value
    is an object, each of its properties is in the object [fm] has there. *)
Definition contains_fields (fd fm : object) : Prop :=
  forall k v, obj_get k fd = Some v ->
    match v with
    | VObj sub =>
        exists subm, obj_get k fm = Some (VObj subm) /\
          forall k' v', obj_get k' sub = Some v' -> obj_get k' subm = Some v'
    | _ => obj_get k fm = Some v
    end.

(** The definition [m] holds everything the caller supplied in [fd] and
    everything the base definition holds. *)
Definition control_contract (fd : object) (m : value) : Prop :=
  exists fm, m = VObj fm /\
    contains_fields fd fm /\ contains_fields base_fields fm.

(** No property of [sub] has a name that [base] uses. *)
Definition disjoint_from (base sub : object) : Prop :=
  forall k, is_Some (obj_get k base) -> obj_get k sub = None.

Definition no_conflict_at (k : string) (base : object) (fd : object) : Prop :=
  match obj_get k fd with
  | None => True
  | Some (VObj sub) => disjoint_from base sub
  | Some _ => False
  end.

(** The caller's [bindings] and [require], where present, are objects and
    do not name a property the base definition names. *)
Definition no_conflict (fd : object) : Prop :=
  no_conflict_at "bindings" base_bindings fd /\
  no_conflict_at "require" base_require fd.

End Contract.

(** A definition whose own [$ngDisabled] binding differs from the base's. *)
Definition conflicting_definition : object :=
  [("bindings", VObj [("$ngDisabled", VStr "@")])].

(** ** Concrete collaborators, for running the model *)

Module Sample.

(** The values the library documents ([fm] is the documented default
    prefix); the remaining names are placeholders. *)
Definition constants : Constants :=
  {| DEFAULT_PREFIX := "fm";
     FORM_COMPONENT_NAME := "fm";
     COMPONENT_CONFIGURATION := "$configuration";
     FORM_CONTROLLER := "$formController" |}.

(** A registrar that refuses an empty name and accepts everything else. *)
Definition strict_host : CompileProvider :=
  {| rejects := fun _ c =>
       match c with
       | Component EmptyString _ | Directive EmptyString _ =>
           Some (VStr "baddir")
       | _ => None
       end |}.

(** A merge in which the caller's value wins a conflict. *)
Definition caller_wins : EtcUtils.MergePolicy :=
  {| EtcUtils.pick := fun _ b => b |}.

Definition utils : Utils := @EtcUtils.utils caller_wins.

(** Three functions to call: one returns the empty string, one throws, one
    returns the object it is called on; any other returns [undefined]. *)
Definition methods : Callables :=
  {| call_method := fun src this =>
       if String.eqb src "() => ''" then Return (VStr "")
       else if String.eqb src "() => { throw 'no'; }" then Throw (VStr "no")
       else if String.eqb src "function () { return this; }" then Return this
       else Return VUndefined |}.

End Sample.

(** ** Reading a sequence of calls *)

(** The name a host registration was made under. *)
Definition call_name (c : host_call) : string :=
  match c with
  | Component name _ | Directive name _ => name
  end.

(** The name a call puts in the log: the name given to one of the three
    registration functions, provided the call returned. *)
Definition logged_name (o : op) (r : outcome) : list string :=
  match r with
  | Thrown _ => []
  | _ =>
      match o with
      | RegisterComponent name _
      | RegisterDirective name _
      | RegisterControl name _ => [name]
      | _ => []
      end
  end.

Fixpoint logged_names (ops : list op) (rs : list outcome) : list string :=
  match ops, rs with
  | o :: ops', r :: rs' => logged_name o r ++ logged_names ops' rs'
  | _, _ => []
  end.

(** The array references among the outcomes. *)
Fixpoint refs (rs : list outcome) : list loc :=
  match rs with
  | [] => []
  | Ref l :: rs' => l :: refs rs'
  | _ :: rs' => refs rs'
  end.

Section StoredPrefix.
Context {F : Callables}.

(** The string the last [setPrefix] call that returned has stored, if there
    was such a call: a [setPrefix] call whose [String()] throws stores
    nothing. *)
Fixpoint stored_prefix (ops : list op) : option string :=
  match ops with
  | [] => None
  | SetPrefix v :: ops' =>
      match stored_prefix ops' with
      | Some s => Some s
      | None =>
          match js_String v with
          | Return s => Some s
          | Throw _ => None
          end
      end
  | _ :: ops' => stored_prefix ops'
  end.

End StoredPrefix.

(** A call of [showErrorsOn]. *)
Definition is_showErrorsOn (o : op) : bool :=
  match o with
  | ShowErrorsOn _ => true
  | _ => false
  end.

(** One of the three registration calls. *)
Definition is_registration (o : op) : bool :=
  match o with
  | RegisterComponent _ _ | RegisterDirective _ _ | RegisterControl _ _ => true
  | _ => false
  end.

Section SameCall.
Context {U : Utils}.

(** The log entry [v] and the host registration [c] come from the same
    call: [v] is the name as given, [c] carries it through [lowercase]. *)
Definition same_call (v : value) (c : host_call) : Prop :=
  exists name, v = VStr name /\ call_name c = lowercase name.

End SameCall.

(** ** The demo application's configuration block

    [app.config(FormationProvider => {
       FormationProvider.showErrorsOn('touched, submitted'); })] *)
Definition app_config : list op :=
  [ShowErrorsOn (VStr "touched, submitted")].

(** ** The demo application's build configuration (webpack.config.js)

    [module.exports = env => { const config = {}; ...; return config; }].
    The parts of [config] that the function computes from [env] are
    represented: the loader rules and the plugins, in the order they are
    pushed, [devServer.port] and [bail].  The parts that are literals
    ([context], [entry], [output], [resolve], the other [devServer] keys and
    the fixed options of each loader and plugin) are the same for every
    [env] and are left out. *)

Module Webpack.

(** ToBoolean: what [c ? a : b], [if (c)] and [c || d] test. *)
Definition truthy (v : value) : bool :=
  match v with
  | VUndefined | VNull => false
  | VBool b => b
  | VNum n => negb (n =? 0)
  | VStr s => negb (String.eqb s "")
  | VFun _ | VArr _ | VObj _ => true
  end.

(** [a || b] *)
Definition or_else (a b : value) : value :=
  if truthy a then a else b.

(** The error raised by reading a property of [undefined] or [null]. *)
Definition TypeError : value := VObj [("name", VStr "TypeError")].

#[global] Instance result_ret : MRet result := fun A a => Return a.

#[global] Instance result_bind : MBind result := fun A B k r =>
  match r with
  | Return a => k a
  | Throw e => Throw e
  end.

(** [env.k] for [k] one of [dist], [local], [test], [stats], [port]: on
    [undefined] and [null] the read throws; a plain object yields its
    property, [undefined] if it has none; no other value has a property of
    one of these names. *)
Definition prop (k : string) (env : value) : result value :=
  match env with
  | VUndefined | VNull => Throw TypeError
  | VObj o => Return (default VUndefined (obj_get k o))
  | _ => Return VUndefined
  end.

(** Whether [env.k] is truthy. *)
Definition flag (k : string) (env : value) : bool :=
  match prop k env with
  | Return v => truthy v
  | Throw _ => false
  end.

(** A string literal that holds its own double quotes, as ['"dist"']. *)
Definition quoted (s : string) : string :=
  String (ascii_of_nat 34) (s +:+ String (ascii_of_nat 34) "").

(** The entries of [config.module.rules], named by their loader. *)
Inductive rule : Type :=
  | XoLoader (failOnError : value)
  | BabelLoader
  | SassLoader
  | UrlLoader
  | SvgSpriteLoader
  | NgTemplateLoader.

(** The entries of [config.plugins]; [DefinePlugin] with the values it
    gives [process.env.NODE_ENV] and [webpack.ENV]. *)
Inductive plugin : Type :=
  | SourceMapDevToolPlugin
  | HtmlWebpackPlugin
  | CommonsChunkPlugin
  | ExtractSass
  | SassLintPlugin
  | DefinePlugin (NODE_ENV ENV : string)
  | VisualizerWebpackPlugin
  | UglifyJsPlugin.

Record config : Type := Config {
  rules : list rule;
  plugins : list plugin;
  port : value;
  bail : value
}.

(** [cond ? [...ps, p] : ps], the effect of [if (cond) ps.push(p)]. *)
Definition push_if (cond : value) (p : plugin) (ps : list plugin)
  : list plugin :=
  if truthy cond then ps ++ [p] else ps.

Definition exports (env : value) : result config :=
  failOnError ← prop "dist" env;
  let rules :=
    [XoLoader failOnError; BabelLoader; SassLoader; UrlLoader;
     SvgSpriteLoader; NgTemplateLoader] in
  let plugins :=
    [SourceMapDevToolPlugin; HtmlWebpackPlugin; CommonsChunkPlugin;
     ExtractSass] in
  local ← prop "local" env;
  let plugins := push_if local SassLintPlugin plugins in
  dist ← prop "dist" env;
  let node_env :=
    if truthy dist then quoted "production" else quoted "development" in
  dist ← prop "dist" env;
  ENV ← (if truthy dist then mret (quoted "dist")
         else test ← prop "test" env;
              mret (if truthy test then quoted "test" else quoted "local"));
  let plugins := plugins ++ [DefinePlugin node_env ENV] in
  stats ← prop "stats" env;
  let plugins := push_if stats VisualizerWebpackPlugin plugins in
  dist ← prop "dist" env;
  let plugins := push_if dist UglifyJsPlugin plugins in
  port ← prop "port" env;
  bail ← prop "dist" env;
  mret (Config rules plugins (or_else port (VNum 8080)) bail).

End Webpack.

(** * Properties *)

(** ** The model at work *)

Example String_of_values :
  map (js_String (F := Sample.methods))
    [VUndefined; VNull; VBool true; VNum (-12); VStr "foo"; VArr [];
     VArr [VNull]; VArr [VNum 1; VArr [VStr "a"; VUndefined]; VStr "b"];
     VObj [("a", VNum 1)]; VFun "x => x";
     VObj [("toString", VFun "() => ''")];
     VObj [("toString", VNum 1)];
     VObj [("toString", VNull); ("valueOf", VFun "() => ''")];
     VObj [("toString", VFun "function () { return this; }")];
     VObj [("toString", VFun "function () { return this; }");
           ("valueOf", VFun "() => { throw 'no'; }")];
     VArr [VStr "a"; VObj [("toString", VNum 1)]]] =
  [Return "undefined"; Return "null"; Return "true"; Return "-12";
   Return "foo"; Return ""; Return ""; Return "1,a,,b";
   Return "[object Object]"; Return "x => x";
   Return ""; Throw TypeError; Return ""; Throw TypeError;
   Throw (VStr "no"); Throw TypeError].
Proof. reflexivity. Qed.

Example object_literal_duplicate_key :
  obj_set "a" (VNum 2) (obj_set "b" (VNum 1) (obj_set "a" (VNum 0) [])) =
  [("a", VNum 2); ("b", VNum 1)].
Proof. reflexivity. Qed.

Example js_succ_near_limit :
  map js_succ [-1; 0; 41; 2 ^ 53 - 1; 2 ^ 53] = [0; 1; 42; 2 ^ 53; 2 ^ 53].
Proof. reflexivity. Qed.

Example helpers_on_names :
  EtcUtils.capitalize "input" = "Input" /\
  EtcUtils.capitalize "x" = "X" /\
  EtcUtils.capitalize "" = "" /\
  EtcUtils.capitalize "9lives" = "9lives" /\
  EtcUtils.lowercase "FmInput" = "fminput".
Proof. repeat split. Qed.

Example a_session :
  (run (C := Sample.constants) (U := Sample.utils) (P := Sample.strict_host)
      (F := Sample.methods)
     [GetNextId; GetShowErrorsOnStr; ShowErrorsOn (VStr "touched, submitted");
      GetPrefixedName "input"; SetPrefix (VStr "foo"); GetNextId;
      GetPrefixedName "input"; GetShowErrorsOnStr;
      RegisterDirective "" (VFun "fn"); RegisterComponent "fmInput" (VObj []);
      GetRegisteredComponents] init).1 =
  [Num 0; Val VUndefined; Undefined; Str "fmInput"; Undefined; Num 1;
   Str "fooInput"; Val (VStr "touched, submitted");
   Thrown (VStr "baddir"); Undefined; Ref 1%nat].
Proof. reflexivity. Qed.

Example a_control :
  compiled
    (run (C := Sample.constants) (U := Sample.utils) (P := Sample.strict_host)
        (F := Sample.methods)
       [RegisterControl "datePicker"
          (VObj [("controllerAs", VStr "DatePicker");
                 ("controller", VFun "DatePicker")])] init).2 =
  [Component "datepicker"
     (VObj [("bindings",
             VObj [("$configuration", VStr "<config");
                   ("$ngDisabled", VStr "<ngDisabled")]);
            ("require", VObj [("$formController", VStr "^^fm")]);
            ("controllerAs", VStr "DatePicker");
            ("controller", VFun "DatePicker")])].
Proof. reflexivity. Qed.

Ltac run_call :=
  unfold step, observe, getRegisteredComponents, setPrefix, showErrorsOn,
    getNextId, getShowErrorsOnStr, getPrefixedName, registerControl,
    registerComponent, registerDirective, compile, push, clone, get, modify,
    lift, mbind, mret, M_bind, M_ret; simpl.

Ltac run_cases :=
  repeat match goal with
         | |- context [rejects ?h ?c] => destruct (rejects h c)
         | |- context [js_String ?v] => destruct (js_String v)
         end.

(** ** Effect of one call, and of a sequence of calls *)

Section Calls.
Context {C : Constants} {U : Utils} {P : CompileProvider} {F : Callables}.

Lemma step_counter (o : op) (st : state) :
  counter (step o st).2 =
  match o with
  | GetNextId => js_succ (counter st)
  | _ => counter st
  end.
Proof.
  destruct o; run_call; run_cases; reflexivity.
Qed.

Lemma step_num (o : op) (st : state) (n : Z) :
  (step o st).1 = Num n -> o = GetNextId /\ n = js_succ (counter st).
Proof.
  destruct o; run_call; run_cases; try discriminate.
  intros [= <-]. split; reflexivity.
Qed.

Lemma step_GetNextId (st : state) :
  step GetNextId st =
  (Num (js_succ (counter st)), set_counter (js_succ (counter st)) st).
Proof. reflexivity. Qed.

Lemma run_cons (o : op) (ops : list op) (st : state) :
  run (o :: ops) st =
  ((step o st).1 :: (run ops (step o st).2).1, (run ops (step o st).2).2).
Proof.
  simpl. destruct (step o st) as [r st1]. simpl.
  destruct (run ops st1) as [rs st2]. reflexivity.
Qed.

Lemma run_app (ops1 ops2 : list op) (st : state) :
  run (ops1 ++ ops2) st =
  ((run ops1 st).1 ++ (run ops2 (run ops1 st).2).1,
   (run ops2 (run ops1 st).2).2).
Proof.
  revert st. induction ops1 as [|o ops1 IH]; intros st.
  - simpl. destruct (run ops2 st). reflexivity.
  - rewrite <- app_comm_cons, !run_cons, IH. reflexivity.
Qed.

End Calls.

(** ** Identifiers *)

Section Identifiers.
Context {C : Constants} {U : Utils} {P : CompileProvider} {F : Callables}.

Lemma ids_cons (r : outcome) (rs : list outcome) :
  ids (r :: rs) = match r with Num n => n :: ids rs | _ => ids rs end.
Proof. destruct r; reflexivity. Qed.

Lemma js_succ_min (c : Z) :
  c <= MAX_EXACT -> js_succ c = Z.min (c + 1) MAX_EXACT.
Proof. unfold js_succ. intros Hc. destruct (Z.ltb_spec c MAX_EXACT); lia. Qed.

Lemma js_succ_le (c : Z) : c <= MAX_EXACT -> js_succ c <= MAX_EXACT.
Proof. intros Hc. rewrite js_succ_min by assumption. lia. Qed.

(** The numbers a sequence of calls returns, whatever the calls in between:
    they count up from the counter and stop at [2^53]. *)
Lemma run_ids (ops : list op) (st : state) :
  counter st <= MAX_EXACT ->
  ids (run ops st).1 =
  (fun i : nat => Z.min (counter st + 1 + Z.of_nat i) MAX_EXACT)
    <$> seq 0 (count_getNextId ops).
Proof.
  revert st. induction ops as [|o ops IH]; intros st Hc; [reflexivity|].
  rewrite run_cons. cbn [fst]. rewrite ids_cons.
  destruct (step o st).1 as [ |n| | | | ] eqn:Hr.
  2: { apply step_num in Hr as [-> ->].
       rewrite IH; rewrite step_counter; [|by apply js_succ_le].
       cbn [count_getNextId seq fmap list_fmap].
       f_equal; [rewrite js_succ_min by assumption; f_equal; lia|].
       rewrite <- fmap_S_seq, <- list_fmap_compose.
       apply list_fmap_ext. intros _ i _. simpl.
       rewrite js_succ_min by assumption. lia. }
  all: assert (Ho : o <> GetNextId)
         by (intros ->; rewrite step_GetNextId in Hr; discriminate).
  all: rewrite IH; rewrite step_counter; destruct o; try congruence;
       reflexivity || assumption.
Qed.

Lemma count_getNextId_replicate (n : nat) :
  count_getNextId (replicate n GetNextId) = n.
Proof. induction n as [|n IH]; simpl; congruence. Qed.

Lemma MAX_EXACT_nonneg : 0 <= MAX_EXACT.
Proof. unfold MAX_EXACT. lia. Qed.

(** Past [2^53 + 1] calls the identifiers stop growing. *)
Lemma ids_replicate_saturate (n : nat) :
  MAX_EXACT + 1 < Z.of_nat n ->
  ids (run (replicate n GetNextId) init).1 <> seqZ 0 (Z.of_nat n).
Proof.
  pose proof MAX_EXACT_nonneg as Hmax.
  intros Hn Heq.
  assert (Hc : counter init <= MAX_EXACT) by (simpl; lia).
  rewrite run_ids in Heq by exact Hc.
  rewrite count_getNextId_replicate in Heq.
  apply (f_equal (fun l => l !! Z.to_nat (MAX_EXACT + 1))) in Heq.
  rewrite list_lookup_fmap, lookup_seq_lt in Heq by lia.
  rewrite lookup_seqZ_lt in Heq by lia.
  cbn [fmap option_fmap option_map] in Heq. apply (inj Some) in Heq.
  change (counter init) with (-1) in Heq. lia.
Qed.

(** C1 (amended): for every sequence of calls that contains at most
    [2^53 + 1] calls of [$getNextId], those calls return exactly
    [0, 1, ..., N-1], whichever other calls are made in between. *)
Theorem getNextId_sequence (ops : list op) :
  Z.of_nat (count_getNextId ops) <= MAX_EXACT + 1 ->
  ids (run ops init).1 = seqZ 0 (Z.of_nat (count_getNextId ops)).
Proof.
  intros Hn. rewrite run_ids by (unfold MAX_EXACT; simpl; lia).
  unfold seqZ. rewrite Nat2Z.id.
  apply list_fmap_ext. intros k i [-> Hk]%lookup_seq. simpl. lia.
Qed.

End Identifiers.

Lemma getNextId_sequence_witness :
  Z.of_nat
    (count_getNextId
       [GetNextId; SetPrefix (VStr "foo"); GetNextId;
        RegisterComponent "fmInput" (VObj []); ShowErrorsOn VNull;
        GetNextId]) <= MAX_EXACT + 1 /\
  ids (run (C := Sample.constants) (U := Sample.utils)
           (P := Sample.strict_host) (F := Sample.methods)
         [GetNextId; SetPrefix (VStr "foo"); GetNextId;
          RegisterComponent "fmInput" (VObj []); ShowErrorsOn VNull;
          GetNextId] init).1 = [0; 1; 2].
Proof.
  split; [vm_compute; discriminate|].
  apply (getNextId_sequence (C := Sample.constants) (U := Sample.utils)
           (P := Sample.strict_host) (F := Sample.methods)
           [GetNextId; SetPrefix (VStr "foo"); GetNextId;
            RegisterComponent "fmInput" (VObj []); ShowErrorsOn VNull;
            GetNextId]).
  vm_compute; discriminate.
Defined.

(** C1 as stated fails: the call after the one that returned [2^53] returns
    [2^53] again, so [2^53 + 2] consecutive calls do not return
    [0, ..., 2^53 + 1]. *)
Lemma getNextId_saturates :
  ids (run (C := Sample.constants) (U := Sample.utils)
           (P := Sample.strict_host)
               (F := Sample.methods) saturating_calls init).1 <>
  seqZ 0 (Z.of_nat (count_getNextId saturating_calls)).
Proof.
  unfold saturating_calls. rewrite count_getNextId_replicate.
  apply ids_replicate_saturate.
  rewrite Z2Nat.id; unfold MAX_EXACT; lia.
Qed.

(** ** The error-display default *)

Section ErrorDisplay.
Context {C : Constants} {U : Utils} {P : CompileProvider} {F : Callables}.

Lemma step_showErrorsOnStr (o : op) (st : state) :
  showErrorsOnStr (step o st).2 =
  match o with
  | ShowErrorsOn v => v
  | _ => showErrorsOnStr st
  end.
Proof.
  destruct o; run_call; run_cases; reflexivity.
Qed.

Lemma run_showErrorsOnStr (ops : list op) (st : state) :
  showErrorsOnStr (run ops st).2 =
  default (showErrorsOnStr st) (last_flags ops).
Proof.
  revert st. induction ops as [|o ops IH]; intros st; [reflexivity|].
  rewrite run_cons. cbn [snd]. rewrite IH, step_showErrorsOnStr.
  destruct o; simpl; try reflexivity.
  destruct (last_flags ops); reflexivity.
Qed.

(** C7: after any sequence of calls, [$getShowErrorsOnStr()] returns
    [undefined] if [showErrorsOn] was never called and otherwise exactly the
    argument of its last call; the getter changes nothing. *)
Theorem showErrorsOn_roundtrip (ops : list op) :
  getShowErrorsOnStr (run ops init).2 =
  (Return (default VUndefined (last_flags ops)), (run ops init).2).
Proof.
  unfold getShowErrorsOnStr, get. rewrite run_showErrorsOnStr. reflexivity.
Qed.

(** C10: [showErrorsOn] stores its argument as it is, whatever its type, and
    the getter hands the same value back; [setPrefix], by contrast, converts
    its argument with [String()]: it stores the string, or, when the
    conversion throws, throws and stores nothing. *)
Theorem showErrorsOn_no_coercion (v : value) (st : state) :
  (showErrorsOn v;; getShowErrorsOnStr) st =
    (Return v, set_showErrorsOnStr v st) /\
  setPrefix v st =
    match js_String v with
    | Return s => (Return tt, set_prefix s st)
    | Throw e => (Throw e, st)
    end.
Proof.
  split; [reflexivity|].
  unfold setPrefix, lift, modify, mbind, M_bind.
  destruct (js_String v); reflexivity.
Qed.

End ErrorDisplay.

(** ** The prefix *)

Section Prefix.
Context {C : Constants} {U : Utils} {P : CompileProvider} {F : Callables}.

Lemma step_prefix (o : op) (st : state) :
  prefix (step o st).2 =
  match o with
  | SetPrefix v =>
      match js_String v with
      | Return s => s
      | Throw _ => prefix st
      end
  | _ => prefix st
  end.
Proof.
  destruct o; run_call; run_cases; reflexivity.
Qed.

Lemma run_prefix (ops : list op) (st : state) :
  existsb is_setPrefix ops = false -> prefix (run ops st).2 = prefix st.
Proof.
  revert st. induction ops as [|o ops IH]; intros st Hops; [reflexivity|].
  simpl in Hops. apply orb_false_elim in Hops as [Ho Hops].
  rewrite run_cons. cbn [snd]. rewrite IH, step_prefix by exact Hops.
  destruct o; try reflexivity. discriminate.
Qed.

Lemma getPrefixedName_unfold (name : string) (st : state) :
  getPrefixedName name st =
  (Return (str_or (prefix st) DEFAULT_PREFIX +:+ capitalize name), st).
Proof. reflexivity. Qed.

End Prefix.

(** ** Arrays: the private log and the copies handed out *)

Section Arrays.
Context {C : Constants} {U : Utils} {P : CompileProvider} {F : Callables}.

Lemma fresh_not_allocated (st : state) (l : loc) :
  is_Some (heap st !! l) -> fresh (dom (heap st)) <> l.
Proof.
  intros Hl%elem_of_dom Heq. rewrite <- Heq in Hl.
  exact (is_fresh (dom (heap st)) Hl).
Qed.

Lemma array_at_set_heap_ne (st : state) (l l' : loc) (xs : list value) :
  l' <> l -> array_at l (set_heap (<[ l' := xs ]> (heap st)) st) = array_at l st.
Proof. intros Hne. unfold array_at. simpl. by rewrite lookup_insert_ne. Qed.

Lemma array_at_set_heap_eq (st : state) (l : loc) (xs : list value) :
  array_at l (set_heap (<[ l := xs ]> (heap st)) st) = xs.
Proof. unfold array_at. simpl. by rewrite lookup_insert_eq. Qed.

Lemma step_GetShowErrorsOnStr (st : state) :
  step GetShowErrorsOnStr st = (Val (showErrorsOnStr st), st).
Proof. reflexivity. Qed.

Lemma step_GetRegisteredComponents (st : state) :
  step GetRegisteredComponents st =
  (Ref (fresh (dom (heap st))),
   set_heap (<[ fresh (dom (heap st)) := log st ]> (heap st)) st).
Proof. reflexivity. Qed.

Lemma step_registeredComponents (o : op) (st : state) :
  registeredComponents (step o st).2 = registeredComponents st.
Proof.
  destruct o; run_call; run_cases; reflexivity.
Qed.

(** A read leaves every existing array as it is. *)
Lemma read_keeps_arrays (o : op) (st : state) (l : loc) :
  is_read o = true -> is_Some (heap st !! l) ->
  array_at l (step o st).2 = array_at l st /\
  is_Some (heap (step o st).2 !! l).
Proof.
  intros Hr Hl. destruct o; try discriminate.
  - rewrite step_GetRegisteredComponents. cbn [snd]. split.
    + apply array_at_set_heap_ne. by apply fresh_not_allocated.
    + simpl. rewrite lookup_insert_ne by (by apply fresh_not_allocated).
      exact Hl.
  - rewrite step_GetShowErrorsOnStr. split; [reflexivity|exact Hl].
Qed.

Lemma reads_keep_arrays (rs : list op) (st : state) (l : loc) :
  forallb is_read rs = true -> is_Some (heap st !! l) ->
  array_at l (run rs st).2 = array_at l st /\
  is_Some (heap (run rs st).2 !! l).
Proof.
  revert st. induction rs as [|o rs IH]; intros st Hrs Hl;
    [split; [reflexivity|exact Hl]|].
  simpl in Hrs. apply andb_prop in Hrs as [Ho Hrs].
  destruct (read_keeps_arrays o st l Ho Hl) as [Ha Hs].
  rewrite run_cons. cbn [snd].
  destruct (IH _ Hrs Hs) as [Ha' Hs']. split; [congruence|exact Hs'].
Qed.

Lemma read_view (o : op) (st : state) :
  is_read o = true -> wf st -> view (step o st).2 = view st.
Proof.
  intros Hr Hwf. unfold view, log.
  rewrite step_registeredComponents.
  destruct (read_keeps_arrays o st _ Hr Hwf) as [-> _].
  destruct o; try discriminate; reflexivity.
Qed.

(** C9: in a sequence of calls of [$getShowErrorsOnStr()] and
    [$getRegisteredComponents()] with no write in between, every call
    returns the same: the stored flags, respectively an array equal to the
    log; and what the registry holds is unchanged at the end. *)
Theorem reads_idempotent (rs : list op) (st : state) :
  wf st -> forallb is_read rs = true ->
  view (run rs st).2 = view st /\
  Forall (fun r => read_result st r (run rs st).2) (run rs st).1.
Proof.
  revert st. induction rs as [|o rs IH]; intros st Hwf Hrs;
    [split; [reflexivity|constructor]|].
  simpl in Hrs. apply andb_prop in Hrs as [Ho Hrs].
  rewrite run_cons. cbn [fst snd].
  pose proof (read_view o st Ho Hwf) as Hv.
  assert (Hwf' : wf (step o st).2).
  { unfold wf. rewrite step_registeredComponents.
    by apply read_keeps_arrays. }
  destruct (IH _ Hwf' Hrs) as [Hv' Hall].
  split; [congruence|]. constructor.
  - destruct o; try discriminate.
    + rewrite step_GetRegisteredComponents in *. cbn [fst snd] in *. split.
      * transitivity
          (array_at (fresh (dom (heap st)))
             (set_heap (<[ fresh (dom (heap st)) := log st ]> (heap st)) st)).
        -- apply reads_keep_arrays; [exact Hrs|].
           simpl. rewrite lookup_insert_eq. eauto.
        -- apply array_at_set_heap_eq.
      * by apply fresh_not_allocated.
    + reflexivity.
  - eapply Forall_impl; [exact Hall|]. intros r Hr.
    unfold view in Hv. injection Hv as _ Hflags _ Hlog _.
    unfold read_result in *. destruct r; try assumption.
    + congruence.
    + destruct Hr as [Hr Hne]. rewrite step_registeredComponents in Hne.
      split; [congruence|exact Hne].
Qed.

End Arrays.

Lemma reads_idempotent_witness :
  wf init /\
  forallb is_read
    [GetShowErrorsOnStr; GetRegisteredComponents; GetRegisteredComponents;
     GetShowErrorsOnStr] = true /\
  view (run (C := Sample.constants) (U := Sample.utils)
            (P := Sample.strict_host) (F := Sample.methods)
          [GetShowErrorsOnStr; GetRegisteredComponents;
           GetRegisteredComponents; GetShowErrorsOnStr] init).2 = view init /\
  Forall
    (fun r =>
       read_result init r
         (run (C := Sample.constants) (U := Sample.utils)
              (P := Sample.strict_host) (F := Sample.methods)
            [GetShowErrorsOnStr; GetRegisteredComponents;
             GetRegisteredComponents; GetShowErrorsOnStr] init).2)
    (run (C := Sample.constants) (U := Sample.utils)
         (P := Sample.strict_host) (F := Sample.methods)
       [GetShowErrorsOnStr; GetRegisteredComponents;
        GetRegisteredComponents; GetShowErrorsOnStr] init).1.
Proof.
  assert (Hwf : wf init) by (vm_compute; eexists; reflexivity).
  split; [exact Hwf|]. split; [reflexivity|].
  apply (reads_idempotent (C := Sample.constants) (U := Sample.utils)
           (P := Sample.strict_host) (F := Sample.methods)
           [GetShowErrorsOnStr; GetRegisteredComponents;
            GetRegisteredComponents; GetShowErrorsOnStr] init Hwf).
  reflexivity.
Defined.

(** ** Registration *)

Section Registration.
Context {C : Constants} {U : Utils} {P : CompileProvider} {F : Callables}.

Lemma registerComponent_unfold (name : string) (def : value) (st : state) :
  registerComponent name def st =
  match rejects (compiled st) (Component (lowercase name) def) with
  | None => (Return tt, registered (Component (lowercase name) def) name st)
  | Some e => (Throw e, st)
  end.
Proof.
  unfold registerComponent, compile, push, get, modify, mbind, M_bind.
  destruct (rejects _ _); reflexivity.
Qed.

Lemma registerDirective_unfold (name : string) (fn : value) (st : state) :
  registerDirective name fn st =
  match rejects (compiled st) (Directive (lowercase name) fn) with
  | None => (Return tt, registered (Directive (lowercase name) fn) name st)
  | Some e => (Throw e, st)
  end.
Proof.
  unfold registerDirective, compile, push, get, modify, mbind, M_bind.
  destruct (rejects _ _); reflexivity.
Qed.

Lemma registered_log (c : host_call) (name : string) (st : state) :
  wf st -> log (registered c name st) = log st ++ [VStr name].
Proof.
  intros [xs Hxs]. unfold log, array_at, registered. simpl.
  rewrite lookup_alter_eq, Hxs. reflexivity.
Qed.

Lemma registered_wf (c : host_call) (name : string) (st : state) :
  wf st -> wf (registered c name st).
Proof.
  intros [xs Hxs]. unfold wf, registered. simpl.
  rewrite lookup_alter_eq, Hxs. simpl. eauto.
Qed.

Lemma wf_init : wf init.
Proof. unfold wf, init. simpl. rewrite lookup_singleton_eq. eauto. Qed.

Lemma log_init : log init = [].
Proof. unfold log, array_at, init. simpl. by rewrite lookup_singleton_eq. Qed.

(** Every call keeps the private array and only ever appends to it. *)
Lemma step_log (o : op) (st : state) :
  wf st -> wf (step o st).2 /\ log st `prefix_of` log (step o st).2.
Proof.
  intros Hwf.
  destruct o;
    try (split; [exact Hwf|reflexivity]).
  2: { unfold step, observe, setPrefix, lift, modify, mbind, M_bind.
       destruct (js_String _); split; (exact Hwf || reflexivity). }
  - rewrite step_GetRegisteredComponents. cbn [snd]. split.
    + unfold wf. simpl.
      rewrite lookup_insert_ne by (by apply fresh_not_allocated). exact Hwf.
    + unfold log at 2. simpl registeredComponents.
      rewrite array_at_set_heap_ne by (by apply fresh_not_allocated).
      reflexivity.
  - unfold step, observe. rewrite registerComponent_unfold.
    destruct (rejects _ _); cbn [snd]; [split; [exact Hwf|reflexivity]|].
    split; [by apply registered_wf|].
    rewrite registered_log by exact Hwf. by apply prefix_app_r.
  - unfold step, observe. rewrite registerDirective_unfold.
    destruct (rejects _ _); cbn [snd]; [split; [exact Hwf|reflexivity]|].
    split; [by apply registered_wf|].
    rewrite registered_log by exact Hwf. by apply prefix_app_r.
  - unfold step, observe, registerControl. rewrite registerComponent_unfold.
    destruct (rejects _ _); cbn [snd]; [split; [exact Hwf|reflexivity]|].
    split; [by apply registered_wf|].
    rewrite registered_log by exact Hwf. by apply prefix_app_r.
Qed.

Lemma run_log (ops : list op) (st : state) :
  wf st -> wf (run ops st).2 /\ log st `prefix_of` log (run ops st).2.
Proof.
  revert st. induction ops as [|o ops IH]; intros st Hwf;
    [split; [exact Hwf|reflexivity]|].
  rewrite run_cons. cbn [snd].
  destruct (step_log o st Hwf) as [Hwf1 Hp1].
  destruct (IH _ Hwf1) as [Hwf2 Hp2].
  split; [exact Hwf2|]. by etransitivity.
Qed.

(** A caller that changes the copy it was handed does not change the log. *)
Lemma copy_is_independent (st : state) (xs : list value) :
  wf st ->
  let l := fresh (dom (heap st)) in
  let st1 := (getRegisteredComponents st).2 in
  getRegisteredComponents st = (Return l, st1) /\
  array_at l st1 = log st /\
  log (array_write l xs st1) = log st /\
  wf (array_write l xs st1).
Proof.
  intros Hwf l st1.
  assert (Hne : l <> registeredComponents st) by (by apply fresh_not_allocated).
  assert (Hst1 : st1 = set_heap (<[ l := log st ]> (heap st)) st) by reflexivity.
  split; [reflexivity|]. rewrite Hst1.
  split; [apply array_at_set_heap_eq|].
  unfold array_write. simpl. rewrite lookup_insert_eq.
  unfold log, wf, array_at. simpl.
  rewrite !lookup_insert_ne by exact Hne. split; [reflexivity|exact Hwf].
Qed.

Lemma run_two_registrations (def fn : value) :
  rejects [] (Component (lowercase "fmInput") def) = None ->
  rejects [Component (lowercase "fmInput") def]
          (Directive (lowercase "fmFocus") fn) = None ->
  let st := (run [RegisterComponent "fmInput" def;
                  RegisterDirective "fmFocus" fn] init).2 in
  wf st /\ log st = [VStr "fmInput"; VStr "fmFocus"].
Proof.
  intros H1 H2 st. subst st. rewrite !run_cons. cbn [run snd].
  assert (Hs1 : (step (RegisterComponent "fmInput" def) init).2 =
                registered (Component (lowercase "fmInput") def) "fmInput" init).
  { unfold step, observe. rewrite registerComponent_unfold.
    change (compiled init) with (@nil host_call). by rewrite H1. }
  rewrite Hs1.
  assert (Hs2 : (step (RegisterDirective "fmFocus" fn)
                   (registered (Component (lowercase "fmInput") def)
                      "fmInput" init)).2 =
                registered (Directive (lowercase "fmFocus") fn) "fmFocus"
                  (registered (Component (lowercase "fmInput") def)
                     "fmInput" init)).
  { unfold step, observe. rewrite registerDirective_unfold.
    change (compiled (registered ?c ?n init)) with ([] ++ [c]).
    by rewrite app_nil_l, H2. }
  rewrite Hs2.
  pose proof wf_init as Hwf.
  split; [by do 2 apply registered_wf|].
  rewrite !registered_log by (try apply registered_wf; exact Hwf).
  by rewrite log_init.
Qed.

(** C5: after [$registerComponent("fmInput", def)] and
    [$registerDirective("fmFocus", fn)], both accepted by the host,
    [$getRegisteredComponents()] returns an array holding
    ["fmInput", "fmFocus"]; whatever the caller then does to that array, the
    next [$getRegisteredComponents()] returns the same names; and no sequence
    of calls ever makes the log shorter or changes what is already in it. *)
Theorem registration_log_append_only (def fn : value) :
  rejects [] (Component (lowercase "fmInput") def) = None ->
  rejects [Component (lowercase "fmInput") def]
          (Directive (lowercase "fmFocus") fn) = None ->
  let names := [VStr "fmInput"; VStr "fmFocus"] in
  let st := (run [RegisterComponent "fmInput" def;
                  RegisterDirective "fmFocus" fn] init).2 in
  (exists l st1,
      getRegisteredComponents st = (Return l, st1) /\
      array_at l st1 = names /\
      forall xs, exists l' st2,
        getRegisteredComponents (array_write l xs st1) = (Return l', st2) /\
        array_at l' st2 = names) /\
  (forall ops1 ops2,
      log (run ops1 init).2 `prefix_of` log (run (ops1 ++ ops2) init).2).
Proof.
  intros H1 H2 names st.
  destruct (run_two_registrations def fn H1 H2) as [Hwf Hlog].
  fold st in Hwf, Hlog. split.
  - exists (fresh (dom (heap st))), (getRegisteredComponents st).2.
    destruct (copy_is_independent st [] Hwf) as (Hget & Harr & _).
    split; [exact Hget|]. split; [by rewrite Harr|].
    intros xs.
    destruct (copy_is_independent st xs Hwf) as (_ & _ & Hlog' & Hwf').
    set (st' := array_write _ xs _) in *.
    exists (fresh (dom (heap st'))), (getRegisteredComponents st').2.
    destruct (copy_is_independent st' [] Hwf') as (Hget' & Harr' & _).
    split; [exact Hget'|]. by rewrite Harr', Hlog'.
  - intros ops1 ops2. rewrite run_app. cbn [snd].
    apply run_log. apply run_log. exact wf_init.
Qed.

(** C4 (amended): when the host call made by [$registerComponent],
    [$registerDirective] or [registerControl] throws, the host's error
    reaches the caller and the state is what it was before the call: the
    name has not been appended to the log. *)
Theorem host_rejection_not_logged (name : string) (v e : value) (st : state) :
  (rejects (compiled st) (Component (lowercase name) v) = Some e ->
   registerComponent name v st = (Throw e, st)) /\
  (rejects (compiled st) (Directive (lowercase name) v) = Some e ->
   registerDirective name v st = (Throw e, st)) /\
  (rejects (compiled st)
     (Component (lowercase name) (mergeDeep base_definition v)) = Some e ->
   registerControl name v st = (Throw e, st)).
Proof.
  repeat split; intros Hr; unfold registerControl;
    rewrite ?registerComponent_unfold, ?registerDirective_unfold, Hr;
    reflexivity.
Qed.

End Registration.

Lemma registration_log_append_only_witness :
  rejects (CompileProvider := Sample.strict_host) []
    (Component (lowercase (Utils := Sample.utils) "fmInput") (VObj [])) = None /\
  rejects (CompileProvider := Sample.strict_host)
    [Component (lowercase (Utils := Sample.utils) "fmInput") (VObj [])]
    (Directive (lowercase (Utils := Sample.utils) "fmFocus") (VFun "fn"))
    = None /\
  exists l st1,
    getRegisteredComponents
      (run (C := Sample.constants) (U := Sample.utils)
           (P := Sample.strict_host) (F := Sample.methods)
         [RegisterComponent "fmInput" (VObj []);
          RegisterDirective "fmFocus" (VFun "fn")] init).2 = (Return l, st1) /\
    array_at l st1 = [VStr "fmInput"; VStr "fmFocus"] /\
    forall xs, exists l' st2,
      getRegisteredComponents (array_write l xs st1) = (Return l', st2) /\
      array_at l' st2 = [VStr "fmInput"; VStr "fmFocus"].
Proof.
  split; [reflexivity|]. split; [reflexivity|].
  apply (registration_log_append_only (C := Sample.constants)
           (U := Sample.utils) (P := Sample.strict_host) (F := Sample.methods)
           (VObj []) (VFun "fn")); reflexivity.
Defined.

Lemma host_rejection_not_logged_witness :
  rejects (CompileProvider := Sample.strict_host) (compiled init)
    (Component (lowercase (Utils := Sample.utils) "") (VObj []))
    = Some (VStr "baddir") /\
  registerComponent (U := Sample.utils) (P := Sample.strict_host)
    "" (VObj []) init = (Throw (VStr "baddir"), init).
Proof.
  split; [reflexivity|].
  apply (host_rejection_not_logged (C := Sample.constants)
           (U := Sample.utils) (P := Sample.strict_host)
           "" (VObj []) (VStr "baddir") init).
  reflexivity.
Defined.

(** C4 as stated fails: a registrar that refuses the empty name throws on
    [$registerComponent("", {})], and the array that
    [$getRegisteredComponents()] then returns is empty: the name is not in
    it. *)
Lemma host_rejection_name_absent :
  (run (C := Sample.constants) (U := Sample.utils) (P := Sample.strict_host)
      (F := Sample.methods)
     [RegisterComponent "" (VObj []); GetRegisteredComponents] init).1 =
    [Thrown (VStr "baddir"); Ref 1%nat] /\
  ~ In (VStr "")
      (array_at 1%nat
         (run (C := Sample.constants) (U := Sample.utils)
              (P := Sample.strict_host) (F := Sample.methods)
            [RegisterComponent "" (VObj []); GetRegisteredComponents]
            init).2).
Proof. split; [reflexivity|]. vm_compute. tauto. Qed.

(** * Properties that rest on the helpers of [etc/utils] *)

(** ** Prefixed names, through [capitalize] *)

Section PrefixedNames.
Context {C : Constants} {P : CompileProvider} {F : Callables}
  {MP : EtcUtils.MergePolicy}.
#[local] Existing Instance EtcUtils.utils.

(** C2: as long as [setPrefix] has not been called, and again after a call
    with a value that [String()] turns into the empty string,
    [$getPrefixedName("input")] returns [DEFAULT_PREFIX] followed by
    ["Input"]; after [setPrefix("foo")] it returns ["fooInput"]; [setPrefix]
    passes its argument through [String()] and stores the result (and when
    [String()] throws, so does [setPrefix], storing nothing). *)
Theorem prefix_fallback :
  (forall ops,
      existsb is_setPrefix ops = false ->
      getPrefixedName "input" (run ops init).2 =
      (Return (DEFAULT_PREFIX +:+ "Input"), (run ops init).2)) /\
  (forall v st,
      js_String v = Return "" ->
      (setPrefix v;; getPrefixedName "input") st =
      (Return (DEFAULT_PREFIX +:+ "Input"), set_prefix "" st)) /\
  (forall st,
      (setPrefix (VStr "foo");; getPrefixedName "input") st =
      (Return "fooInput", set_prefix "foo" st)) /\
  (forall v st,
      setPrefix v st =
      match js_String v with
      | Return s => (Return tt, set_prefix s st)
      | Throw e => (Throw e, st)
      end).
Proof.
  split; [|split; [|split]].
  - intros ops Hops. rewrite getPrefixedName_unfold, run_prefix by exact Hops.
    reflexivity.
  - intros v st Hv.
    unfold setPrefix, lift, modify, mbind, M_bind. rewrite Hv. reflexivity.
  - intros st. reflexivity.
  - intros v st. unfold setPrefix, lift, modify, mbind, M_bind.
    destruct (js_String v); reflexivity.
Qed.

Lemma to_upper_code (c : ascii) :
  N_of_ascii (EtcUtils.to_upper c) =
  (if (97 <=? N_of_ascii c) && (N_of_ascii c <=? 122)
   then N_of_ascii c - 32 else N_of_ascii c)%N.
Proof.
  unfold EtcUtils.to_upper.
  destruct ((97 <=? N_of_ascii c) && (N_of_ascii c <=? 122))%N eqn:Hc;
    [|reflexivity].
  apply andb_prop in Hc as [_ Hc%N.leb_le].
  apply N_ascii_embedding. lia.
Qed.

(** C8: [$getPrefixedName(name)] returns the stored prefix, or
    [DEFAULT_PREFIX] when the stored prefix is empty, followed by [name] with
    its first character in upper case (a letter [a]..[z] moved down by 32
    character codes, any other character as it is) and the rest unchanged;
    the state is left as it was, and two states with the same prefix give
    the same result; ["x"] becomes ["X"]. *)
Theorem prefixed_name_capitalized (name : string) (st : state) :
  (exists cap,
      getPrefixedName name st =
        (Return ((if String.eqb (prefix st) "" then DEFAULT_PREFIX
                  else prefix st) +:+ cap), st) /\
      match name with
      | EmptyString => cap = EmptyString
      | String c rest =>
          exists c', cap = String c' rest /\
            N_of_ascii c' =
            (if (97 <=? N_of_ascii c) && (N_of_ascii c <=? 122)
             then N_of_ascii c - 32 else N_of_ascii c)%N
      end) /\
  (forall st', prefix st' = prefix st ->
      (getPrefixedName name st').1 = (getPrefixedName name st).1) /\
  getPrefixedName "x" st =
    (Return ((if String.eqb (prefix st) "" then DEFAULT_PREFIX
              else prefix st) +:+ "X"), st).
Proof.
  assert (Hp : str_or (prefix st) DEFAULT_PREFIX =
               if String.eqb (prefix st) "" then DEFAULT_PREFIX
               else prefix st) by (destruct (prefix st); reflexivity).
  split; [|split].
  - exists (EtcUtils.capitalize name). split.
    + rewrite getPrefixedName_unfold, Hp. reflexivity.
    + destruct name as [|c rest]; [reflexivity|].
      exists (EtcUtils.to_upper c). split; [reflexivity|apply to_upper_code].
  - intros st' Hst'. rewrite !getPrefixedName_unfold. cbn [fst].
    by rewrite Hst'.
  - rewrite getPrefixedName_unfold, Hp. reflexivity.
Qed.

End PrefixedNames.

Lemma prefix_fallback_witness :
  existsb is_setPrefix [GetNextId; ShowErrorsOn (VStr "touched")] = false /\
  js_String (F := Sample.methods) (VObj [("toString", VFun "() => ''")]) =
    Return "" /\
  getPrefixedName (C := Sample.constants) (U := Sample.utils) "input"
    (run (C := Sample.constants) (U := Sample.utils)
         (P := Sample.strict_host) (F := Sample.methods)
       [GetNextId; ShowErrorsOn (VStr "touched")] init).2 =
  (Return "fmInput",
   (run (C := Sample.constants) (U := Sample.utils)
        (P := Sample.strict_host) (F := Sample.methods)
      [GetNextId; ShowErrorsOn (VStr "touched")] init).2) /\
  (setPrefix (F := Sample.methods) (VObj [("toString", VFun "() => ''")]);;
   getPrefixedName (C := Sample.constants) (U := Sample.utils) "input") init =
  (Return "fmInput", set_prefix "" init).
Proof.
  split; [reflexivity|]. split; [reflexivity|].
  destruct (prefix_fallback (C := Sample.constants) (P := Sample.strict_host)
              (F := Sample.methods) (MP := Sample.caller_wins))
    as (Hnever & Hempty & _).
  split.
  - apply (Hnever [GetNextId; ShowErrorsOn (VStr "touched")]). reflexivity.
  - apply (Hempty (VObj [("toString", VFun "() => ''")]) init). reflexivity.
Defined.

Lemma prefixed_name_capitalized_witness :
  prefix (set_counter 5 (set_prefix "foo" init)) =
    prefix (set_prefix "foo" init) /\
  (getPrefixedName (C := Sample.constants) (U := Sample.utils) "input"
     (set_counter 5 (set_prefix "foo" init))).1 =
  (getPrefixedName (C := Sample.constants) (U := Sample.utils) "input"
     (set_prefix "foo" init)).1 /\
  getPrefixedName (C := Sample.constants) (U := Sample.utils) "input"
    (set_prefix "foo" init) = (Return "fooInput", set_prefix "foo" init) /\
  getPrefixedName (C := Sample.constants) (U := Sample.utils) "x" init =
    (Return "fmX", init).
Proof.
  split; [reflexivity|].
  destruct (prefixed_name_capitalized (C := Sample.constants)
              (MP := Sample.caller_wins) "input" (set_prefix "foo" init))
    as (_ & Hsame & _).
  destruct (prefixed_name_capitalized (C := Sample.constants)
              (MP := Sample.caller_wins) "x" init) as (_ & _ & Hx).
  split; [apply Hsame; reflexivity|]. split; [reflexivity|exact Hx].
Defined.

(** ** Registration, through [lowercase] *)

Section Lowercase.
Context {C : Constants} {P : CompileProvider} {F : Callables}
  {MP : EtcUtils.MergePolicy}.
#[local] Existing Instance EtcUtils.utils.

Lemma lowercase_get (name : string) (i : nat) :
  String.get i (EtcUtils.lowercase name) =
  EtcUtils.to_lower <$> String.get i name.
Proof.
  revert i. induction name as [|c r IH]; intros i; [reflexivity|].
  destruct i as [|i]; [reflexivity|]. simpl. apply IH.
Qed.

(** C6: [$registerComponent(name, definition)], the host accepting the
    call, hands the host the pair of [name] in lower case, every character
    of it, and [definition], and puts [name] itself, as given, at the end of
    the log. *)
Theorem registerComponent_forwards (name : string) (def : value) (st : state) :
  wf st ->
  rejects (compiled st) (Component (EtcUtils.lowercase name) def) = None ->
  (registerComponent name def st).1 = Return tt /\
  compiled (registerComponent name def st).2 =
    compiled st ++ [Component (EtcUtils.lowercase name) def] /\
  log (registerComponent name def st).2 = log st ++ [VStr name] /\
  (forall i, String.get i (EtcUtils.lowercase name) =
             EtcUtils.to_lower <$> String.get i name).
Proof.
  intros Hwf Hacc. rewrite registerComponent_unfold.
  change (lowercase name) with (EtcUtils.lowercase name). rewrite Hacc.
  cbn [fst snd]. split; [reflexivity|]. split; [reflexivity|].
  split; [by apply registered_log|]. apply lowercase_get.
Qed.

End Lowercase.

Lemma registerComponent_forwards_witness :
  wf init /\
  rejects (CompileProvider := Sample.strict_host) (compiled init)
    (Component (EtcUtils.lowercase "FmInput") (VObj [])) = None /\
  compiled (registerComponent (U := Sample.utils) (P := Sample.strict_host)
              "FmInput" (VObj []) init).2 =
    [Component "fminput" (VObj [])] /\
  log (registerComponent (U := Sample.utils) (P := Sample.strict_host)
         "FmInput" (VObj []) init).2 = [VStr "FmInput"].
Proof.
  assert (Hwf : wf init) by (vm_compute; eexists; reflexivity).
  split; [exact Hwf|]. split; [reflexivity|].
  destruct (registerComponent_forwards (P := Sample.strict_host)
              (MP := Sample.caller_wins) "FmInput" (VObj []) init Hwf)
    as (_ & Hc & Hl & _); [reflexivity|].
  split; [exact Hc|exact Hl].
Defined.

(** ** Controls, through [mergeDeep] *)

Section BaseMerge.
Context {C : Constants} {P : CompileProvider} {F : Callables}
  {MP : EtcUtils.MergePolicy}.
#[local] Existing Instance EtcUtils.utils.

Lemma obj_get_app (k : string) (a b : object) :
  obj_get k (a ++ b) =
  match obj_get k a with
  | Some v => Some v
  | None => obj_get k b
  end.
Proof.
  induction a as [|[k' v'] a IH]; [reflexivity|]. simpl.
  destruct (String.eqb k k'); [reflexivity|exact IH].
Qed.

Lemma obj_get_map_values (g : string -> value -> value) (o : object)
    (k : string) :
  obj_get k (map (fun '(k', v) => (k', g k' v)) o) = g k <$> obj_get k o.
Proof.
  induction o as [|[k' v'] o IH]; [reflexivity|]. simpl.
  destruct (String.eqb_spec k k') as [->|_]; [reflexivity|exact IH].
Qed.

Lemma obj_get_filter_keys (q : string -> bool) (o : object) (k : string) :
  obj_get k (List.filter (fun '(k', _) => q k') o) =
  if q k then obj_get k o else None.
Proof.
  induction o as [|[k' v'] o IH]; [by destruct (q k)|]. simpl.
  destruct (q k') eqn:Hq'; simpl;
    destruct (String.eqb_spec k k') as [->|_]; rewrite ?IH, ?Hq';
    reflexivity.
Qed.

Lemma merge_fields_get (fa fb : object) (k : string) :
  obj_get k (EtcUtils.merge_fields fa fb) =
  match obj_get k fa with
  | Some va =>
      Some (match obj_get k fb with
            | Some vb => EtcUtils.mergeDeep va vb
            | None => va
            end)
  | None => obj_get k fb
  end.
Proof.
  unfold EtcUtils.merge_fields. rewrite obj_get_app.
  rewrite (obj_get_map_values
             (fun k va => match obj_get k fb with
                          | Some vb => EtcUtils.mergeDeep va vb
                          | None => va
                          end)).
  rewrite (obj_get_filter_keys
             (fun k => match obj_get k fa with
                       | Some _ => false
                       | None => true
                       end)).
  destruct (obj_get k fa); reflexivity.
Qed.

Lemma merge_disjoint_get (base sub : object) (k : string) :
  disjoint_from base sub ->
  obj_get k (EtcUtils.merge_fields base sub) =
  match obj_get k base with
  | Some v => Some v
  | None => obj_get k sub
  end.
Proof.
  intros Hd. rewrite merge_fields_get.
  destruct (obj_get k base) as [v|] eqn:Hk; [|reflexivity].
  rewrite (Hd k) by (rewrite Hk; eauto). reflexivity.
Qed.

Lemma base_fields_eq :
  base_fields =
  [("bindings", VObj base_bindings); ("require", VObj base_require)].
Proof. reflexivity. Qed.

Lemma base_fields_get (k : string) (v : value) :
  obj_get k base_fields = Some v ->
  (k = "bindings" /\ v = VObj base_bindings) \/
  (k = "require" /\ v = VObj base_require).
Proof.
  rewrite base_fields_eq. simpl.
  destruct (String.eqb_spec k "bindings") as [->|_];
    [intros [= <-]; by left|].
  destruct (String.eqb_spec k "require") as [->|_];
    [intros [= <-]; by right|discriminate].
Qed.

(** The merged [bindings] (or [require]) holds what the base has there and
    what the caller has there. *)
Lemma merged_part (k : string) (base fd : object) :
  obj_get k base_fields = Some (VObj base) ->
  no_conflict_at k base fd ->
  exists subm,
    obj_get k (EtcUtils.merge_fields base_fields fd) = Some (VObj subm) /\
    (forall k' v', obj_get k' base = Some v' -> obj_get k' subm = Some v') /\
    (forall sub, obj_get k fd = Some (VObj sub) ->
       forall k' v', obj_get k' sub = Some v' -> obj_get k' subm = Some v').
Proof.
  intros Hbase Hnc. rewrite merge_fields_get, Hbase.
  unfold no_conflict_at in Hnc.
  destruct (obj_get k fd) as [[| | | | | | |sub]|] eqn:Hfd; try contradiction.
  - exists (EtcUtils.merge_fields base sub). split; [reflexivity|]. split.
    + intros k' v' Hk'. by rewrite merge_disjoint_get, Hk'.
    + intros sub' [= <-] k' v' Hk'. rewrite merge_disjoint_get by exact Hnc.
      destruct (obj_get k' base) as [w|] eqn:Hb; [|exact Hk'].
      rewrite (Hnc k') in Hk' by (rewrite Hb; eauto). discriminate.
  - exists base. split; [reflexivity|]. split; [tauto|discriminate].
Qed.

(** C3 (amended): for every name and every definition object whose
    [bindings] and [require], where present, are objects that do not name a
    property of the base definition, [registerControl(name, definition)]
    registers the deep merge of the base definition and [definition]; the
    merge holds everything the caller supplied, the two base bindings
    ([COMPONENT_CONFIGURATION: '<config'] and [$ngDisabled: '<ngDisabled'])
    and the one base requirement ([FORM_CONTROLLER: '^^' +
    FORM_COMPONENT_NAME]). *)
Theorem registerControl_base_merge (name : string) (fd : object) (st : state) :
  COMPONENT_CONFIGURATION <> "$ngDisabled" ->
  no_conflict fd ->
  registerControl name (VObj fd) st =
    registerComponent name
      (EtcUtils.mergeDeep base_definition (VObj fd)) st /\
  control_contract fd (EtcUtils.mergeDeep base_definition (VObj fd)) /\
  base_bindings =
    [(COMPONENT_CONFIGURATION, VStr "<config");
     ("$ngDisabled", VStr "<ngDisabled")] /\
  base_require = [(FORM_CONTROLLER, VStr ("^^" +:+ FORM_COMPONENT_NAME))].
Proof.
  intros Hcc [Hb Hr]. split; [reflexivity|]. split.
  - exists (EtcUtils.merge_fields base_fields fd).
    split; [reflexivity|]. split.
    + intros k v Hk.
      destruct (obj_get k base_fields) as [vb|] eqn:Hbase.
      * destruct (base_fields_get k vb Hbase) as [[-> ->]|[-> ->]].
        -- destruct (merged_part _ _ fd Hbase Hb) as (subm & Hm & _ & Hsub).
           unfold no_conflict_at in Hb. rewrite Hk in Hb.
           destruct v; try contradiction. exists subm. eauto.
        -- destruct (merged_part _ _ fd Hbase Hr) as (subm & Hm & _ & Hsub).
           unfold no_conflict_at in Hr. rewrite Hk in Hr.
           destruct v; try contradiction. exists subm. eauto.
      * assert (Hm : obj_get k (EtcUtils.merge_fields base_fields fd) = Some v)
          by (by rewrite merge_fields_get, Hbase).
        destruct v; try exact Hm. eauto.
    + intros k v Hk.
      destruct (base_fields_get k v Hk) as [[-> ->]|[-> ->]].
      * destruct (merged_part _ _ fd Hk Hb) as (subm & Hm & Hbase & _). eauto.
      * destruct (merged_part _ _ fd Hk Hr) as (subm & Hm & Hbase & _). eauto.
  - split; [|reflexivity]. unfold base_bindings. cbn [obj_set].
    destruct (String.eqb_spec "$ngDisabled" COMPONENT_CONFIGURATION) as [He|_];
      [by destruct Hcc|reflexivity].
Qed.

End BaseMerge.

Lemma registerControl_base_merge_witness :
  COMPONENT_CONFIGURATION (Constants := Sample.constants) <> "$ngDisabled" /\
  no_conflict (C := Sample.constants) [("controller", VFun "X")] /\
  control_contract (C := Sample.constants) [("controller", VFun "X")]
    (EtcUtils.mergeDeep (MP := Sample.caller_wins)
       (base_definition (C := Sample.constants))
       (VObj [("controller", VFun "X")])).
Proof.
  assert (Hcc : COMPONENT_CONFIGURATION (Constants := Sample.constants)
                <> "$ngDisabled") by (simpl; discriminate).
  assert (Hnc : no_conflict (C := Sample.constants) [("controller", VFun "X")])
    by (unfold no_conflict, no_conflict_at; simpl; tauto).
  split; [exact Hcc|]. split; [exact Hnc|].
  apply (registerControl_base_merge (C := Sample.constants)
           (P := Sample.strict_host) (MP := Sample.caller_wins)
           "datePicker" [("controller", VFun "X")] init Hcc Hnc).
Defined.

(** C3 as stated fails: when the caller supplies its own [$ngDisabled]
    binding, no merge can hold both the caller's value and the base's:
    whichever side the merge policy favours, the other is lost. *)
Lemma registerControl_conflict :
  ~ exists MP : EtcUtils.MergePolicy,
      control_contract (C := Sample.constants) conflicting_definition
        (EtcUtils.mergeDeep (MP := MP)
           (base_definition (C := Sample.constants))
           (VObj conflicting_definition)).
Proof.
  intros (MP & fm & Hm & Hsup & Hbase).
  simpl in Hm. injection Hm as <-.
  destruct (Hsup "bindings" _ eq_refl) as (sub1 & Hs1 & Hcaller).
  destruct (Hbase "bindings" _ eq_refl) as (sub2 & Hs2 & Hbind).
  rewrite Hs1 in Hs2. injection Hs2 as <-.
  simpl in Hs1. injection Hs1 as <-.
  specialize (Hcaller "$ngDisabled" _ eq_refl).
  specialize (Hbind "$ngDisabled" _ eq_refl).
  simpl in Hcaller, Hbind. congruence.
Qed.

(** * Further properties of the provider *)

(** ** One call, by kind *)

Section CallKinds.
Context {C : Constants} {U : Utils} {P : CompileProvider} {F : Callables}.

(** A registration call either is accepted, and leaves the [registered]
    state, or is refused, and leaves the state it found. *)
Lemma step_registration (o : op) (st : state) :
  is_registration o = true ->
  exists c name,
    call_name c = lowercase name /\
    logged_name o Undefined = [name] /\
    ((rejects (compiled st) c = None /\
      step o st = (Undefined, registered c name st)) \/
     (exists e, rejects (compiled st) c = Some e /\
                step o st = (Thrown e, st))).
Proof.
  intros Ho. destruct o as [| | | | | |n d|n f|n d]; try discriminate.
  - exists (Component (lowercase n) d), n. do 2 (split; [reflexivity|]).
    unfold step, observe. rewrite registerComponent_unfold.
    destruct (rejects _ _) as [e|]; [right; eauto|left; eauto].
  - exists (Directive (lowercase n) f), n. do 2 (split; [reflexivity|]).
    unfold step, observe. rewrite registerDirective_unfold.
    destruct (rejects _ _) as [e|]; [right; eauto|left; eauto].
  - exists (Component (lowercase n) (mergeDeep base_definition d)), n.
    do 2 (split; [reflexivity|]).
    unfold step, observe, registerControl. rewrite registerComponent_unfold.
    destruct (rejects _ _) as [e|]; [right; eauto|left; eauto].
Qed.

(** The other six calls tell the host nothing and change the heap, if at
    all, by adding one array at an unused location; of them only [setPrefix]
    can throw, when [String()] does, and then it changes nothing. *)
Lemma step_other (o : op) (st : state) :
  is_registration o = false ->
  (forall e, (step o st).1 = Thrown e ->
     (step o st).2 = st /\
     exists v, o = SetPrefix v /\ js_String v = Throw e) /\
  logged_name o (step o st).1 = [] /\
  compiled (step o st).2 = compiled st /\
  (heap (step o st).2 = heap st \/
   heap (step o st).2 =
     <[ fresh (dom (heap st)) := log st ]> (heap st) /\
   (step o st).1 = Ref (fresh (dom (heap st)))).
Proof.
  intros Ho. destruct o as [|v| | | | | | |]; try discriminate.
  2: { unfold step, observe, setPrefix, lift, modify, mbind, M_bind.
       destruct (js_String v) as [s|e'] eqn:Hv; cbn [fst snd].
       - split; [intros e; discriminate|]. repeat split. by left.
       - split; [intros e [= <-]; eauto|]. repeat split. by left. }
  all: (split; [intros e; discriminate|]);
    (split; [reflexivity|]); (split; [reflexivity|]);
    solve [left; reflexivity | right; split; reflexivity].
Qed.

End CallKinds.

(** ** What can throw, and what a throw leaves *)

Section Throwing.
Context {C : Constants} {U : Utils} {P : CompileProvider} {F : Callables}.


End Throwing.


(** ** The log and the host *)

Section LogAndHost.
Context {C : Constants} {U : Utils} {P : CompileProvider} {F : Callables}.

Lemma step_log_exact (o : op) (st : state) :
  wf st ->
  log (step o st).2 = log st ++ (VStr <$> logged_name o (step o st).1).
Proof.
  intros Hwf. destruct (is_registration o) eqn:Ho.
  - destruct (step_registration o st Ho)
      as (c & name & _ & Hn & [[_ Hs]|(e & _ & Hs)]); rewrite Hs; cbn [fst snd].
    + rewrite Hn. by apply registered_log.
    + simpl. by rewrite app_nil_r.
  - destruct (step_other o st Ho) as (_ & Hn & _ & Hh). rewrite Hn.
    simpl. rewrite app_nil_r. unfold log, array_at.
    rewrite step_registeredComponents.
    destruct Hh as [->|[-> _]]; [reflexivity|].
    by rewrite lookup_insert_ne by (by apply fresh_not_allocated).
Qed.

(** X2: the log after a sequence of calls is the log before it followed by
    the names given to the registration calls that returned, in call order,
    a name as often as it was registered; calls that threw and calls of the
    other six functions add nothing. *)
Theorem log_is_successful_registrations (ops : list op) (st : state) :
  wf st ->
  log (run ops st).2 = log st ++ (VStr <$> logged_names ops (run ops st).1).
Proof.
  revert st. induction ops as [|o ops IH]; intros st Hwf.
  - simpl. by rewrite app_nil_r.
  - rewrite run_cons. cbn [fst snd logged_names].
    rewrite IH by (by apply step_log). rewrite step_log_exact by exact Hwf.
    by rewrite fmap_app, app_assoc.
Qed.

Lemma step_same_call (o : op) (st : state) :
  wf st ->
  Forall2 same_call (log st) (compiled st) ->
  Forall2 same_call (log (step o st).2) (compiled (step o st).2).
Proof.
  intros Hwf Hinv. rewrite step_log_exact by exact Hwf.
  destruct (is_registration o) eqn:Ho.
  - destruct (step_registration o st Ho)
      as (c & name & Hc & Hn & [[_ Hs]|(e & _ & Hs)]); rewrite Hs; cbn [fst snd].
    + rewrite Hn. apply Forall2_app; [exact Hinv|].
      constructor; [|constructor]. exists name. by split.
    + simpl. by rewrite app_nil_r.
  - destruct (step_other o st Ho) as (_ & Hn & Hcomp & _).
    rewrite Hn, Hcomp. simpl. by rewrite app_nil_r.
Qed.

(** X3: after any sequence of calls on a new provider the log and the list
    of registrations the host has accepted run in step: same length, and at
    each position the host holds the call made for the name logged there,
    under that name passed through [lowercase]. *)
Theorem log_matches_host (ops : list op) :
  Forall2 same_call (log (run ops init).2) (compiled (run ops init).2).
Proof.
  assert (Hgen : forall st, wf st ->
            Forall2 same_call (log st) (compiled st) ->
            Forall2 same_call (log (run ops st).2) (compiled (run ops st).2)).
  { induction ops as [|o ops IH]; intros st Hwf Hinv; [exact Hinv|].
    rewrite run_cons. cbn [snd]. apply IH; [by apply step_log|].
    by apply step_same_call. }
  apply Hgen; [exact wf_init|]. rewrite log_init. constructor.
Qed.

End LogAndHost.

Lemma log_is_successful_registrations_witness :
  wf init /\
  log (run (C := Sample.constants) (U := Sample.utils)
           (P := Sample.strict_host) (F := Sample.methods)
         [RegisterComponent "fmInput" (VObj []); GetNextId;
          RegisterDirective "" (VFun "fn");
          RegisterControl "fmInput" (VObj []);
          RegisterDirective "fmFocus" (VFun "fn")] init).2 =
  [VStr "fmInput"; VStr "fmInput"; VStr "fmFocus"].
Proof.
  assert (Hwf : wf init) by (vm_compute; eexists; reflexivity).
  split; [exact Hwf|].
  apply (log_is_successful_registrations (C := Sample.constants)
           (U := Sample.utils) (P := Sample.strict_host) (F := Sample.methods)
           [RegisterComponent "fmInput" (VObj []); GetNextId;
            RegisterDirective "" (VFun "fn");
            RegisterControl "fmInput" (VObj []);
            RegisterDirective "fmFocus" (VFun "fn")] init Hwf).
Defined.

(** ** Arrays the provider does not own *)

Section ForeignArrays.
Context {C : Constants} {U : Utils} {P : CompileProvider} {F : Callables}.

Lemma step_frame (o : op) (st : state) (l : loc) :
  is_Some (heap st !! l) -> l <> registeredComponents st ->
  array_at l (step o st).2 = array_at l st.
Proof.
  intros Hl Hne. unfold array_at. destruct (is_registration o) eqn:Ho.
  - destruct (step_registration o st Ho)
      as (c & name & _ & _ & [[_ Hs]|(e & _ & Hs)]); rewrite Hs; cbn [snd];
      [|reflexivity].
    unfold registered. simpl. by rewrite lookup_alter_ne.
  - destruct (step_other o st Ho) as (_ & _ & _ & [->|[-> _]]); [reflexivity|].
    by rewrite lookup_insert_ne by (by apply fresh_not_allocated).
Qed.

Lemma step_heap_mono (o : op) (st : state) (l : loc) :
  is_Some (heap st !! l) -> is_Some (heap (step o st).2 !! l).
Proof.
  intros Hl. destruct (is_registration o) eqn:Ho.
  - destruct (step_registration o st Ho)
      as (c & name & _ & _ & [[_ Hs]|(e & _ & Hs)]); rewrite Hs; cbn [snd];
      [|exact Hl].
    unfold registered. simpl. by apply lookup_alter_is_Some.
  - destruct (step_other o st Ho) as (_ & _ & _ & [->|[-> _]]); [exact Hl|].
    by rewrite lookup_insert_ne by (by apply fresh_not_allocated).
Qed.

(** X4: no sequence of calls changes an array other than the provider's
    own: an array that exists and is not the private log, such as a copy
    handed out earlier and since changed by its holder, holds afterwards
    what it held before. *)
Theorem foreign_arrays_untouched (ops : list op) (st : state) (l : loc) :
  is_Some (heap st !! l) -> l <> registeredComponents st ->
  array_at l (run ops st).2 = array_at l st.
Proof.
  revert st. induction ops as [|o ops IH]; intros st Hl Hne; [reflexivity|].
  rewrite run_cons. cbn [snd].
  rewrite IH; [by apply step_frame|by apply step_heap_mono|].
  by rewrite step_registeredComponents.
Qed.

Lemma step_ref (o : op) (st : state) (l : loc) :
  (step o st).1 = Ref l ->
  heap st !! l = None /\ is_Some (heap (step o st).2 !! l).
Proof.
  intros Hr. destruct (is_registration o) eqn:Ho.
  - destruct (step_registration o st Ho)
      as (c & name & _ & _ & [[_ Hs]|(e & _ & Hs)]); rewrite Hs in Hr;
      discriminate.
  - destruct o as [|v| | | | | | |]; try discriminate.
    2: { unfold step, observe, setPrefix, lift, modify, mbind, M_bind in Hr.
         destruct (js_String v); discriminate. }
    rewrite step_GetRegisteredComponents in Hr |- *. cbn [fst snd] in *.
    injection Hr as <-. split.
    + apply not_elem_of_dom, is_fresh.
    + simpl. rewrite lookup_insert_eq. eauto.
Qed.

Lemma run_heap_mono (ops : list op) (st : state) (l : loc) :
  is_Some (heap st !! l) -> is_Some (heap (run ops st).2 !! l).
Proof.
  revert st. induction ops as [|o ops IH]; intros st Hl; [exact Hl|].
  rewrite run_cons. cbn [snd]. by apply IH, step_heap_mono.
Qed.

Lemma refs_cons (r : outcome) (rs : list outcome) :
  refs (r :: rs) = match r with Ref l => l :: refs rs | _ => refs rs end.
Proof. destruct r; reflexivity. Qed.

Lemma refs_unallocated (ops : list op) (st : state) :
  Forall (fun l => heap st !! l = None) (refs (run ops st).1).
Proof.
  revert st. induction ops as [|o ops IH]; intros st; [constructor|].
  rewrite run_cons. cbn [fst]. rewrite refs_cons.
  assert (Hrest : Forall (fun l => heap st !! l = None)
                    (refs (run ops (step o st).2).1)).
  { eapply Forall_impl; [apply IH|]. intros l Hl. simpl in Hl.
    destruct (heap st !! l) eqn:Hst; [|reflexivity].
    assert (Hs : is_Some (heap (step o st).2 !! l))
      by (apply step_heap_mono; rewrite Hst; eauto).
    rewrite Hl in Hs. by destruct Hs. }
  destruct (step o st).1 as [ | | | |l| ] eqn:Hr; try exact Hrest.
  constructor; [|exact Hrest]. by apply step_ref in Hr as [Hn _].
Qed.

(** X5: every array reference that [$getRegisteredComponents()] returns is
    new: in any sequence of calls the references returned are pairwise
    different, and none is an array that existed before the sequence (the
    private log included). *)
Theorem copies_are_new (ops : list op) (st : state) :
  NoDup (refs (run ops st).1) /\
  Forall (fun l => heap st !! l = None) (refs (run ops st).1).
Proof.
  split; [|apply refs_unallocated].
  revert st. induction ops as [|o ops IH]; intros st; [constructor|].
  rewrite run_cons. cbn [fst]. rewrite refs_cons.
  destruct (step o st).1 as [ | | | |l| ] eqn:Hr; try apply IH.
  constructor; [|apply IH].
  apply step_ref in Hr as [_ Hs]. intros Hin.
  pose proof (refs_unallocated ops (step o st).2) as Hall.
  rewrite Forall_forall in Hall. rewrite (Hall l Hin) in Hs. by destruct Hs.
Qed.

End ForeignArrays.

Lemma foreign_arrays_untouched_witness :
  is_Some (heap (array_write 1%nat [VNum 7]
                   (getRegisteredComponents init).2) !! 1%nat) /\
  1%nat <> registeredComponents
             (array_write 1%nat [VNum 7] (getRegisteredComponents init).2) /\
  array_at 1%nat
    (run (C := Sample.constants) (U := Sample.utils)
         (P := Sample.strict_host) (F := Sample.methods)
       [RegisterComponent "fmInput" (VObj []); GetRegisteredComponents;
        RegisterDirective "fmFocus" (VFun "fn")]
       (array_write 1%nat [VNum 7] (getRegisteredComponents init).2)).2 =
  [VNum 7].
Proof.
  assert (H1 : is_Some (heap (array_write 1%nat [VNum 7]
                                (getRegisteredComponents init).2) !! 1%nat))
    by (vm_compute; eexists; reflexivity).
  assert (H2 : 1%nat <> registeredComponents
                 (array_write 1%nat [VNum 7]
                    (getRegisteredComponents init).2))
    by (intros H; vm_compute in H; discriminate H).
  split; [exact H1|]. split; [exact H2|].
  apply (foreign_arrays_untouched (C := Sample.constants)
           (U := Sample.utils) (P := Sample.strict_host) (F := Sample.methods)
           [RegisterComponent "fmInput" (VObj []); GetRegisteredComponents;
            RegisterDirective "fmFocus" (VFun "fn")] _ 1%nat H1 H2).
Defined.

(** ** Identifiers, at any length *)

Section IdentifiersAtLength.
Context {C : Constants} {U : Utils} {P : CompileProvider} {F : Callables}.

(** X6: in a sequence of calls of any length on a new provider, the [k]-th
    call of [$getNextId()], counting from 0, returns the smaller of [k] and
    [2^53], whatever is called in between: identifiers start at 0, never
    decrease and never exceed [2^53]. *)
Theorem getNextId_formula (ops : list op) :
  ids (run ops init).1 =
  (fun k => Z.min k MAX_EXACT) <$> seqZ 0 (Z.of_nat (count_getNextId ops)).
Proof.
  rewrite run_ids by (unfold MAX_EXACT; simpl; lia).
  unfold seqZ. rewrite Nat2Z.id, <- list_fmap_compose.
  apply list_fmap_ext. intros k i _. simpl. f_equal. lia.
Qed.

End IdentifiersAtLength.

(** ** The prefix, at any time *)

Section PrefixAtAnyTime.
Context {C : Constants} {U : Utils} {P : CompileProvider} {F : Callables}.

Lemma run_stored_prefix (ops : list op) (st : state) :
  prefix (run ops st).2 = default (prefix st) (stored_prefix ops).
Proof.
  revert st. induction ops as [|o ops IH]; intros st; [reflexivity|].
  rewrite run_cons. cbn [snd]. rewrite IH, step_prefix.
  destruct o as [|v| | | | | | |]; simpl; try reflexivity.
  destruct (stored_prefix ops), (js_String v); reflexivity.
Qed.

(** X7: [$getPrefixedName] reads the prefix when it is called: after any
    sequence of calls on a new provider it uses the string stored by the
    last [setPrefix] call that returned, however late that call came (a
    [setPrefix] call that threw counts for nothing), and [DEFAULT_PREFIX]
    when there was no such call or the string stored is empty. *)
Theorem getPrefixedName_uses_last_prefix (ops : list op) (name : string) :
  getPrefixedName name (run ops init).2 =
  (Return (match stored_prefix ops with
           | Some (String c s) => String c s
           | _ => DEFAULT_PREFIX
           end +:+ capitalize name),
   (run ops init).2).
Proof.
  rewrite getPrefixedName_unfold, run_stored_prefix.
  destruct (stored_prefix ops) as [[|c s]|]; reflexivity.
Qed.

(** X8: only the empty string falls back to [DEFAULT_PREFIX].  A value that
    [String()] turns into a string that is not empty makes that string the
    prefix, so [setPrefix(undefined)], [setPrefix(null)], [setPrefix(false)],
    [setPrefix(0)] and [setPrefix({})] do not restore the default: they make
    the prefix ["undefined"], ["null"], ["false"], ["0"] and
    ["[object Object]"]. *)
Theorem nonempty_prefix_verbatim (v : value) (s name : string) (st : state) :
  js_String v = Return s -> s <> "" ->
  (setPrefix v;; getPrefixedName name) st =
    (Return (s +:+ capitalize name), set_prefix s st) /\
  map js_String [VUndefined; VNull; VBool false; VNum 0; VObj []] =
    [Return "undefined"; Return "null"; Return "false"; Return "0";
     Return "[object Object]"].
Proof.
  intros Hv Hs. split; [|reflexivity].
  unfold setPrefix, lift, modify, mbind, M_bind. rewrite Hv.
  change (getPrefixedName name (set_prefix s st) =
          (Return (s +:+ capitalize name), set_prefix s st)).
  rewrite getPrefixedName_unfold. simpl prefix.
  destruct s; [by destruct Hs|reflexivity].
Qed.

Lemma run_flags_kept (ops : list op) (st : state) :
  existsb is_showErrorsOn ops = false ->
  showErrorsOnStr (run ops st).2 = showErrorsOnStr st.
Proof.
  intros Hops. rewrite run_showErrorsOnStr.
  assert (Hl : last_flags ops = None); [|by rewrite Hl].
  induction ops as [|o ops IH]; [reflexivity|].
  simpl in Hops. apply orb_false_elim in Hops as [Ho Hops].
  destruct o; try discriminate; simpl; by apply IH.
Qed.

(** X9: the demo application's configuration block calls [showErrorsOn]
    and, despite its comment, not [setPrefix]: after it, and after any
    further calls other than [showErrorsOn] and [setPrefix],
    [$getShowErrorsOnStr()] returns ['touched, submitted'] and prefixed
    names start with [DEFAULT_PREFIX]. *)
Theorem app_config_effect (ops : list op) (name : string) :
  existsb is_showErrorsOn ops = false ->
  existsb is_setPrefix ops = false ->
  getShowErrorsOnStr (run (app_config ++ ops) init).2 =
    (Return (VStr "touched, submitted"), (run (app_config ++ ops) init).2) /\
  getPrefixedName name (run (app_config ++ ops) init).2 =
    (Return (DEFAULT_PREFIX +:+ capitalize name),
     (run (app_config ++ ops) init).2).
Proof.
  intros Hf Hp. rewrite run_app. cbn [snd]. split.
  - unfold getShowErrorsOnStr, get. by rewrite run_flags_kept.
  - rewrite getPrefixedName_unfold, run_prefix by exact Hp. reflexivity.
Qed.

End PrefixAtAnyTime.

Lemma nonempty_prefix_verbatim_witness :
  js_String (F := Sample.methods) VUndefined = Return "undefined" /\
  "undefined" <> "" /\
  (setPrefix (F := Sample.methods) VUndefined;;
   getPrefixedName (C := Sample.constants) (U := Sample.utils) "input") init =
  (Return "undefinedInput", set_prefix "undefined" init).
Proof.
  assert (Hs : "undefined" <> "") by discriminate.
  split; [reflexivity|]. split; [exact Hs|].
  apply (nonempty_prefix_verbatim (C := Sample.constants)
           (U := Sample.utils) (F := Sample.methods)
           VUndefined "undefined" "input" init eq_refl Hs).
Defined.

Lemma app_config_effect_witness :
  existsb is_showErrorsOn [GetNextId; RegisterComponent "fmInput" (VObj [])]
    = false /\
  existsb is_setPrefix [GetNextId; RegisterComponent "fmInput" (VObj [])]
    = false /\
  getPrefixedName (C := Sample.constants) (U := Sample.utils) "input"
    (run (C := Sample.constants) (U := Sample.utils)
         (P := Sample.strict_host) (F := Sample.methods)
       (app_config ++ [GetNextId; RegisterComponent "fmInput" (VObj [])])
       init).2 =
  (Return "fmInput",
   (run (C := Sample.constants) (U := Sample.utils)
        (P := Sample.strict_host) (F := Sample.methods)
      (app_config ++ [GetNextId; RegisterComponent "fmInput" (VObj [])])
      init).2).
Proof.
  split; [reflexivity|]. split; [reflexivity|].
  apply (app_config_effect (C := Sample.constants) (U := Sample.utils)
           (P := Sample.strict_host) (F := Sample.methods)
           [GetNextId; RegisterComponent "fmInput" (VObj [])] "input");
    reflexivity.
Defined.

(** * Properties of the build configuration *)

Module WebpackFacts.
Import Webpack.

(** [env.k] on a value that is neither [undefined] nor [null]. *)
Lemma prop_defined (k : string) (env : value) :
  env <> VUndefined -> env <> VNull ->
  exists v, prop k env = Return v /\ truthy v = flag k env.
Proof.
  intros Hu Hn. unfold flag.
  destruct env; try contradiction; simpl; eauto.
Qed.

(** The configuration in closed form. *)
Lemma exports_defined (env : value) :
  env <> VUndefined -> env <> VNull ->
  exists vdist vport,
    prop "dist" env = Return vdist /\ prop "port" env = Return vport /\
    exports env =
    Return
      (Config
         [XoLoader vdist; BabelLoader; SassLoader; UrlLoader;
          SvgSpriteLoader; NgTemplateLoader]
         ([SourceMapDevToolPlugin; HtmlWebpackPlugin; CommonsChunkPlugin;
           ExtractSass]
          ++ (if flag "local" env then [SassLintPlugin] else [])
          ++ [DefinePlugin
                (if flag "dist" env then quoted "production"
                 else quoted "development")
                (if flag "dist" env then quoted "dist"
                 else if flag "test" env then quoted "test"
                 else quoted "local")]
          ++ (if flag "stats" env then [VisualizerWebpackPlugin] else [])
          ++ (if flag "dist" env then [UglifyJsPlugin] else []))
         (or_else vport (VNum 8080)) vdist).
Proof.
  intros Hu Hn.
  destruct (prop_defined "dist" env Hu Hn) as (vdist & Hd & Hfd).
  destruct (prop_defined "local" env Hu Hn) as (vlocal & Hl & Hfl).
  destruct (prop_defined "test" env Hu Hn) as (vtest & Ht & Hft).
  destruct (prop_defined "stats" env Hu Hn) as (vstats & Hs & Hfs).
  destruct (prop_defined "port" env Hu Hn) as (vport & Hp & _).
  exists vdist, vport. do 2 (split; [assumption|]).
  unfold exports, push_if. rewrite Hd, Hl, Hs, Hp.
  rewrite <- Hfd, <- Hfl, <- Hft, <- Hfs.
  unfold mbind, mret, result_bind, result_ret.
  destruct (truthy vdist), (truthy vlocal), (truthy vstats);
    rewrite ?Ht; destruct (truthy vtest); reflexivity.
Qed.

(** X10: called without an environment ([env] is [undefined] or [null]) the
    configuration function throws a TypeError, at its first read of
    [env.dist]; called with any other value it returns a configuration. *)
Theorem exports_needs_env (env : value) :
  match env with
  | VUndefined | VNull => exports env = Throw TypeError
  | _ => exists c, exports env = Return c
  end.
Proof.
  destruct env; try reflexivity;
    match goal with
    | |- exists c, exports ?e = _ =>
        destruct (exports_defined e) as (vd & vp & _ & _ & ->);
        [discriminate|discriminate|eauto]
    end.
Qed.

Lemma quoted_inj (a b : string) : quoted a = quoted b -> a = b.
Proof.
  unfold quoted. intros [= H]. revert b H.
  induction a as [|c a IH]; intros [|d b] H; simpl in H; try reflexivity.
  - injection H as _ H. destruct b; discriminate.
  - injection H as _ H. destruct a; discriminate.
  - injection H as -> H. f_equal. by apply IH.
Qed.

Ltac flags env :=
  destruct (flag "dist" env), (flag "local" env), (flag "stats" env),
    (flag "test" env); cbn [app In].

(** X11: every production setting follows [env.dist] and nothing else.  In
    a configuration the function returns, [UglifyJsPlugin] is present
    exactly when [env.dist] is truthy, and is then the last plugin;
    [NODE_ENV] is ['"production"'] and [ENV] is ['"dist"'] exactly then (and
    [NODE_ENV] is ['"development"'] with [ENV] one of ['"test"'] and
    ['"local"'] otherwise); [bail] and the linter's [failOnError] are
    [env.dist] itself.  [SassLintPlugin] is present exactly when [env.local]
    is truthy and [VisualizerWebpackPlugin] exactly when [env.stats] is. *)
Theorem production_follows_dist (env : value) (c : config) :
  exports env = Return c ->
  (In UglifyJsPlugin (plugins c) <-> flag "dist" env = true) /\
  (flag "dist" env = true -> last (plugins c) = Some UglifyJsPlugin) /\
  (forall ne en, In (DefinePlugin ne en) (plugins c) ->
     (ne = quoted "production" <-> flag "dist" env = true) /\
     (en = quoted "dist" <-> flag "dist" env = true) /\
     (flag "dist" env = false ->
      ne = quoted "development" /\ (en = quoted "test" \/ en = quoted "local"))) /\
  (exists ne en, In (DefinePlugin ne en) (plugins c)) /\
  prop "dist" env = Return (bail c) /\
  (forall v, In (XoLoader v) (rules c) -> v = bail c) /\
  (In SassLintPlugin (plugins c) <-> flag "local" env = true) /\
  (In VisualizerWebpackPlugin (plugins c) <-> flag "stats" env = true).
Proof.
  intros Hc.
  assert (Hu : env <> VUndefined) by (intros ->; discriminate).
  assert (Hn : env <> VNull) by (intros ->; discriminate).
  destruct (exports_defined env Hu Hn) as (vd & vp & Hd & _ & He).
  rewrite He in Hc. injection Hc as <-. cbn [plugins rules bail].
  assert (Hq1 : quoted "development" <> quoted "production")
    by (intros H%quoted_inj; discriminate).
  assert (Hq2 : quoted "test" <> quoted "dist")
    by (intros H%quoted_inj; discriminate).
  assert (Hq3 : quoted "local" <> quoted "dist")
    by (intros H%quoted_inj; discriminate).
  split; [(flags env; intuition discriminate)|].
  split; [(intros ->; destruct (flag "local" env), (flag "stats" env);
                reflexivity)|].
  split.
  { (intros ne en; flags env; intros Hin;
      repeat (destruct Hin as [Hin|Hin]; try discriminate Hin);
      try contradiction; injection Hin as <- <-;
      repeat split; try tauto; try congruence; try discriminate; eauto). }
  split; [(flags env; eauto 12)|].
  split; [exact Hd|].
  split; [(intros v [[= <-]|Hin]; [reflexivity|];
      repeat (destruct Hin as [Hin|Hin]; try discriminate Hin);
      contradiction)|].
  split; (flags env; intuition discriminate).
Qed.

End WebpackFacts.

Lemma production_follows_dist_witness :
  Webpack.exports (VObj [("dist", VBool true); ("port", VStr "9000")]) =
  Return
    (Webpack.Config
       [Webpack.XoLoader (VBool true); Webpack.BabelLoader;
        Webpack.SassLoader; Webpack.UrlLoader; Webpack.SvgSpriteLoader;
        Webpack.NgTemplateLoader]
       [Webpack.SourceMapDevToolPlugin; Webpack.HtmlWebpackPlugin;
        Webpack.CommonsChunkPlugin; Webpack.ExtractSass;
        Webpack.DefinePlugin (Webpack.quoted "production")
          (Webpack.quoted "dist");
        Webpack.UglifyJsPlugin]
       (VStr "9000") (VBool true)) /\
  In Webpack.UglifyJsPlugin
    [Webpack.SourceMapDevToolPlugin; Webpack.HtmlWebpackPlugin;
     Webpack.CommonsChunkPlugin; Webpack.ExtractSass;
     Webpack.DefinePlugin (Webpack.quoted "production")
       (Webpack.quoted "dist");
     Webpack.UglifyJsPlugin].
Proof.
  assert (He : Webpack.exports
                 (VObj [("dist", VBool true); ("port", VStr "9000")]) =
               Return
                 (Webpack.Config
                    [Webpack.XoLoader (VBool true); Webpack.BabelLoader;
                     Webpack.SassLoader; Webpack.UrlLoader;
                     Webpack.SvgSpriteLoader; Webpack.NgTemplateLoader]
                    [Webpack.SourceMapDevToolPlugin;
                     Webpack.HtmlWebpackPlugin; Webpack.CommonsChunkPlugin;
                     Webpack.ExtractSass;
                     Webpack.DefinePlugin (Webpack.quoted "production")
                       (Webpack.quoted "dist");
                     Webpack.UglifyJsPlugin]
                    (VStr "9000") (VBool true))) by reflexivity.
  split; [exact He|].
  apply (WebpackFacts.production_follows_dist _ _ He). reflexivity.
Defined.
